(** * AuthProvider: the session life cycle of [@versini/auth-provider]

    A shallow embedding of
    [packages/auth-provider/src/components/AuthProvider/AuthProvider.tsx].

    The component keeps a React state [authState], four [useLocalStorage]
    slots and one ref.  Its operations are asynchronous functions that call
    collaborators living in other packages (token verification, the remote
    authentication service).  They are embedded in a state monad whose
    computations either return or throw; the state a computation reached
    before it threw is kept, as it is in JavaScript.

    Every collaborator is an oracle of the history of calls made so far, so
    that a statement quantified over the oracles covers services whose
    answers change over time. *)

From Stdlib Require Import String List Bool Arith Lia.
Import ListNotations.
Local Open Scope string_scope.
Local Open Scope list_scope.

Set Implicit Arguments.

(** ** Values *)

(** Modelled from the spec: the constants of [common/constants], which the
    component imports and which are not part of the source at hand.  The
    spec gives the four reasons as these strings. *)
Definition EXPIRED_SESSION : string := "expired session".
Definition LOGIN_ERROR : string := "login failed".
Definition LOGOUT_SESSION : string := "logout".
Definition ACCESS_TOKEN_ERROR : string := "access token error".

(** Modelled from the spec: [AUTH_TYPES] of [@versini/auth-common]; a login
    request carries one of two grants. *)
Inductive AuthType : Type := PASSWORD | CODE.

(** [type === AUTH_TYPES.CODE] *)
Definition is_code (t : AuthType) : bool :=
  match t with CODE => true | PASSWORD => false end.

(** JavaScript truthiness of a value that is a string, [null] or
    [undefined]: only a non-empty string is truthy. *)
Definition truthy (v : option string) : bool :=
  match v with
  | Some s => negb (s =? EmptyString)
  | None => false
  end.

(** [a || b] on a possibly missing string with a string default. *)
Definition or_else (v : option string) (d : string) : string :=
  match v with
  | Some s => if s =? EmptyString then d else s
  | None => d
  end.

Record User : Type := mkUser {
  userId : string;
  username : string
}.

(** [AuthState].  [logoutReason] is an optional property: an object literal
    that omits it reads as [undefined], here [None]. *)
Record AuthState : Type := mkAuthState {
  isLoading : bool;
  isAuthenticated : bool;
  user : option User;
  logoutReason : option string
}.

Definition with_isLoading (b : bool) (prev : AuthState) : AuthState :=
  {| isLoading := b;
     isAuthenticated := isAuthenticated prev;
     user := user prev;
     logoutReason := logoutReason prev |}.

(** The claims of a verified token that the component reads,
    [payload[JWT.USER_ID_KEY]] and [payload[JWT.USERNAME_KEY]], each
    taken as a string that is present. *)
Record Jwt : Type := mkJwt {
  payload_userId : string;
  payload_username : string
}.

Record PkcePair : Type := mkPkce {
  code_verifier : string;
  code_challenge : string
}.

Record PreAuthRequest : Type := mkPreAuthRequest {
  pre_nonce : string;
  pre_clientId : string;
  pre_code_challenge : string
}.

Record PreAuthResponse : Type := mkPreAuthResponse {
  pre_status : bool;
  pre_code : string
}.

Record AuthRequest : Type := mkAuthRequest {
  req_username : string;
  req_password : string;
  req_clientId : string;
  req_sessionExpiration : string;
  req_nonce : string;
  req_type : AuthType;
  req_code : option string;
  req_code_verifier : option string
}.

(** The answer of [authenticateUser]: its status and the four fields the
    component reads from a granted answer, each taken as a string that
    is present. *)
Record AuthResponse : Type := mkAuthResponse {
  auth_status : bool;
  auth_idToken : string;
  auth_accessToken : string;
  auth_refreshToken : string;
  auth_userId : string
}.

(** The argument of [tokenManager.refreshtoken], together with the two
    tokens the [TokenManager] was built from. *)
Record RefreshRequest : Type := mkRefreshRequest {
  tm_accessToken : option string;
  tm_refreshToken : option string;
  rf_clientId : string;
  rf_userId : string;
  rf_nonce : option string
}.

(** The answer of the refresh: its status and the two tokens the
    component reads from a successful answer, each taken as a string
    that is present. *)
Record RefreshResponse : Type := mkRefreshResponse {
  rf_status : string;
  newAccessToken : string;
  newRefreshToken : string
}.

Record LogoutRequest : Type := mkLogoutRequest {
  lo_idToken : option string;
  lo_accessToken : option string;
  lo_refreshToken : option string;
  lo_clientId : string
}.

(** ** Calls to collaborators *)

Inductive Call : Type :=
| CallUuid
| CallPkce
| CallVerify (token : string)
| CallPreAuth (req : PreAuthRequest)
| CallAuthenticate (req : AuthRequest)
| CallRefresh (req : RefreshRequest)
| CallLogoutUser (req : LogoutRequest).

(** The calls that go to the remote authentication service. *)
Definition is_remote (c : Call) : bool :=
  match c with
  | CallPreAuth _ | CallAuthenticate _ | CallRefresh _
  | CallLogoutUser _ => true
  | CallUuid | CallPkce | CallVerify _ => false
  end.

Definition is_refresh (c : Call) : bool :=
  match c with CallRefresh _ => true | _ => false end.

Definition is_authenticate (c : Call) : bool :=
  match c with CallAuthenticate _ => true | _ => false end.

Definition count_calls (p : Call -> bool) (h : list Call) : nat :=
  length (filter p h).

(** What an [await]ed call does: it returns a value or it throws.  The
    component never looks at the error it catches. *)
Inductive Outcome (A : Type) : Type :=
| Returns (a : A)
| Throws.
Arguments Throws {A}.

Definition returned {A : Type} (o : Outcome A) : bool :=
  match o with Returns _ => true | Throws => false end.

(** Modelled from the spec: the collaborators, which live in other modules
    ([common/utilities], [@versini/auth-common], [uuid]) and are consumed
    as black boxes.  Each is a function of the history of earlier calls,
    and each asynchronous one may return or throw; [uuidv4] is synchronous
    and returns. *)
Record Collaborators : Type := mkCollaborators {
  uuidv4 : list Call -> string;
  pkceChallengePair : list Call -> Outcome PkcePair;
  verifyAndExtractToken : list Call -> string -> Outcome (option Jwt);
  getPreAuthCode : list Call -> PreAuthRequest -> Outcome PreAuthResponse;
  authenticateUser : list Call -> AuthRequest -> Outcome AuthResponse;
  refreshtoken : list Call -> RefreshRequest -> Outcome RefreshResponse;
  logoutUser : list Call -> LogoutRequest -> Outcome unit
}.

(** ** The component instance *)

(** The four [useLocalStorage] slots hold a string or are absent, [null]
    in the source; setting and removing a slot return. *)

Record Component : Type := mkComponent {
  authState : AuthState;
  idToken : option string;
  accessToken : option string;
  refreshToken : option string;
  nonce : option string;
  effectDidRunRef : bool;
  history : list Call
}.

(** What one render hands to the closures it creates: the operations read
    [authState] and the four slots from the render they were created in,
    not from the store they write to. *)
Record Render : Type := mkRender {
  r_authState : AuthState;
  r_idToken : option string;
  r_accessToken : option string;
  r_refreshToken : option string;
  r_nonce : option string
}.

Definition render (c : Component) : Render :=
  {| r_authState := authState c;
     r_idToken := idToken c;
     r_accessToken := accessToken c;
     r_refreshToken := refreshToken c;
     r_nonce := nonce c |}.

(** [useState]'s initial value. *)
Definition initialAuthState : AuthState :=
  {| isLoading := true;
     isAuthenticated := false;
     user := None;
     logoutReason := Some EmptyString |}.

(** The component at mount, over whatever the four slots hold. *)
Definition mount (i a r n : option string) : Component :=
  {| authState := initialAuthState;
     idToken := i; accessToken := a; refreshToken := r; nonce := n;
     effectDidRunRef := false;
     history := [] |}.

(** ** The monad *)

Definition M (A : Type) : Type := Component -> Outcome A * Component.

Definition ret {A : Type} (a : A) : M A := fun c => (Returns a, c).

Definition bind {A B : Type} (m : M A) (k : A -> M B) : M B :=
  fun c =>
    match m c with
    | (Returns a, c') => k a c'
    | (Throws, c') => (Throws, c')
    end.

(** [try { m } catch (_error) { handler }] *)
Definition try_catch {A : Type} (m : M A) (handler : M A) : M A :=
  fun c =>
    match m c with
    | (Returns a, c') => (Returns a, c')
    | (Throws, c') => handler c'
    end.

(** [(async () => { m })()] whose promise nobody awaits: a rejection does
    not reach the code that started it. *)
Definition detached (m : M unit) : M unit :=
  fun c => (Returns tt, snd (m c)).

Declare Scope js_scope.
Delimit Scope js_scope with js.
Notation "x <- m ;; k" := (bind m (fun x => k))
  (at level 61, m at next level, right associativity) : js_scope.
Notation "m ;; k" := (bind m (fun _ => k))
  (at level 61, right associativity) : js_scope.
Local Open Scope js_scope.

(** What a run answers, and the component it leaves. *)
Definition outcome {A : Type} (m : M A) (c : Component) : Outcome A :=
  fst (m c).
Definition after {A : Type} (m : M A) (c : Component) : Component :=
  snd (m c).

(** *** State and storage primitives *)

Definition setAuthState (a : AuthState) : M unit :=
  fun c => (Returns tt,
    {| authState := a;
       idToken := idToken c; accessToken := accessToken c;
       refreshToken := refreshToken c; nonce := nonce c;
       effectDidRunRef := effectDidRunRef c; history := history c |}).

(** [setAuthState((prev) => f(prev))] *)
Definition updateAuthState (f : AuthState -> AuthState) : M unit :=
  fun c => setAuthState (f (authState c)) c.

Definition writeIdToken (v : option string) : M unit :=
  fun c => (Returns tt,
    {| authState := authState c;
       idToken := v; accessToken := accessToken c;
       refreshToken := refreshToken c; nonce := nonce c;
       effectDidRunRef := effectDidRunRef c; history := history c |}).

Definition writeAccessToken (v : option string) : M unit :=
  fun c => (Returns tt,
    {| authState := authState c;
       idToken := idToken c; accessToken := v;
       refreshToken := refreshToken c; nonce := nonce c;
       effectDidRunRef := effectDidRunRef c; history := history c |}).

Definition writeRefreshToken (v : option string) : M unit :=
  fun c => (Returns tt,
    {| authState := authState c;
       idToken := idToken c; accessToken := accessToken c;
       refreshToken := v; nonce := nonce c;
       effectDidRunRef := effectDidRunRef c; history := history c |}).

Definition writeNonce (v : option string) : M unit :=
  fun c => (Returns tt,
    {| authState := authState c;
       idToken := idToken c; accessToken := accessToken c;
       refreshToken := refreshToken c; nonce := v;
       effectDidRunRef := effectDidRunRef c; history := history c |}).

Definition setIdToken (v : string) : M unit := writeIdToken (Some v).
Definition removeIdToken : M unit := writeIdToken None.
Definition setAccessToken (v : string) : M unit := writeAccessToken (Some v).
Definition removeAccessToken : M unit := writeAccessToken None.
Definition setRefreshToken (v : string) : M unit := writeRefreshToken (Some v).
Definition removeRefreshToken : M unit := writeRefreshToken None.
Definition setNonce (v : string) : M unit := writeNonce (Some v).
Definition removeNonce : M unit := writeNonce None.

Definition readEffectDidRun : M bool :=
  fun c => (Returns (effectDidRunRef c), c).

Definition setEffectDidRun (b : bool) : M unit :=
  fun c => (Returns tt,
    {| authState := authState c;
       idToken := idToken c; accessToken := accessToken c;
       refreshToken := refreshToken c; nonce := nonce c;
       effectDidRunRef := b; history := history c |}).

(** [await f(...)]: the collaborator answers from the history so far, and
    the call is recorded. *)
Definition call {A : Type} (what : Call) (f : list Call -> Outcome A) : M A :=
  fun c => (f (history c),
    {| authState := authState c;
       idToken := idToken c; accessToken := accessToken c;
       refreshToken := refreshToken c; nonce := nonce c;
       effectDidRunRef := effectDidRunRef c;
       history := history c ++ [what] |}).

(** ** The operations of the component *)

Section AuthProvider.

(** The collaborators and the two props of the component. *)
Variable env : Collaborators.
Variable clientId : string.
Variable sessionExpiration : string.

Section Closures.

(** The render the closures below belong to. *)
Variable r : Render.

(** [removeStateAndLocalStorage(logoutReason?)].  The [console.warn] of
    its first line writes to the console only. *)
Definition removeStateAndLocalStorage (reason : option string) : M unit :=
  setAuthState
    {| isLoading := true;
       isAuthenticated := false;
       user := None;
       logoutReason := Some (or_else reason EXPIRED_SESSION) |} ;;
  removeIdToken ;;
  removeAccessToken ;;
  removeRefreshToken ;;
  removeNonce.

(** [invalidateAndLogout(message)]: [logoutUser] receives the tokens of
    the render, read before they were removed. *)
Definition invalidateAndLogout (message : string) : M unit :=
  removeStateAndLocalStorage (Some (or_else (Some message) EXPIRED_SESSION)) ;;
  call
    (CallLogoutUser
       {| lo_idToken := r_idToken r;
          lo_accessToken := r_accessToken r;
          lo_refreshToken := r_refreshToken r;
          lo_clientId := clientId |})
    (fun h => logoutUser env h
       {| lo_idToken := r_idToken r;
          lo_accessToken := r_accessToken r;
          lo_refreshToken := r_refreshToken r;
          lo_clientId := clientId |}) ;;
  updateAuthState (with_isLoading false).

(** [jwt && jwt.payload[JWT.USER_ID_KEY] !== ''] *)
Definition jwt_ok (jwt : option Jwt) : bool :=
  match jwt with
  | Some j => negb (payload_userId j =? EmptyString)
  | None => false
  end.

(** The body of the [async] function the bootstrap effect starts. *)
Definition bootstrap_task (token : string) : M unit :=
  try_catch
    (jwt <- call (CallVerify token)
              (fun h => verifyAndExtractToken env h token) ;;
     match jwt with
     | Some j =>
         if negb (payload_userId j =? EmptyString) then
           setAuthState
             {| isLoading := false;
                isAuthenticated := true;
                user := Some {| userId := payload_userId j;
                                username := payload_username j |};
                logoutReason := Some EmptyString |}
         else invalidateAndLogout EXPIRED_SESSION
     | None => invalidateAndLogout EXPIRED_SESSION
     end)
    (invalidateAndLogout EXPIRED_SESSION).

(** The bootstrap effect.  Its cleanup function, which sets
    [effectDidRunRef.current], runs before the effect runs again; the
    effect is the only reader of the ref, so the ref is set here when
    the run ends. *)
Definition bootstrap : M unit :=
  didRun <- readEffectDidRun ;;
  if didRun then ret tt
  else
    (match r_idToken r with
     | Some token =>
         if isLoading (r_authState r) then detached (bootstrap_task token)
         else updateAuthState (with_isLoading false)
     | None => updateAuthState (with_isLoading false)
     end) ;;
    setEffectDidRun true.

(** The success branch shared in shape by both grants; [reason] is the
    [logoutReason] property of the object literal, [None] where the
    literal has none. *)
Definition authenticated (response : AuthResponse) (name : string)
    (reason : option string) : M bool :=
  setIdToken (auth_idToken response) ;;
  setAccessToken (auth_accessToken response) ;;
  setRefreshToken (auth_refreshToken response) ;;
  setAuthState
    {| isLoading := false;
       isAuthenticated := true;
       user := Some {| userId := auth_userId response; username := name |};
       logoutReason := reason |} ;;
  ret true.

(** [login(username, password, type)] *)
Definition login (name password : string) (type : AuthType) : M bool :=
  _nonce <- call CallUuid (fun h => Returns (uuidv4 env h)) ;;
  setNonce _nonce ;;
  updateAuthState (with_isLoading true) ;;
  if is_code type then
    pair <- call CallPkce (pkceChallengePair env) ;;
    let preRequest :=
      {| pre_nonce := _nonce;
         pre_clientId := clientId;
         pre_code_challenge := code_challenge pair |} in
    preResponse <- call (CallPreAuth preRequest)
                     (fun h => getPreAuthCode env h preRequest) ;;
    if pre_status preResponse then
      let request :=
        {| req_username := name;
           req_password := password;
           req_clientId := clientId;
           req_sessionExpiration := sessionExpiration;
           req_nonce := _nonce;
           req_type := type;
           req_code := Some (pre_code preResponse);
           req_code_verifier := Some (code_verifier pair) |} in
      response <- call (CallAuthenticate request)
                    (fun h => authenticateUser env h request) ;;
      if auth_status response then
        authenticated response name (Some EmptyString)
      else
        removeStateAndLocalStorage (Some LOGIN_ERROR) ;;
        ret false
    else ret false
  else
    let request :=
      {| req_username := name;
         req_password := password;
         req_clientId := clientId;
         req_sessionExpiration := sessionExpiration;
         req_nonce := _nonce;
         req_type := type;
         req_code := None;
         req_code_verifier := None |} in
    response <- call (CallAuthenticate request)
                  (fun h => authenticateUser env h request) ;;
    if auth_status response then
      authenticated response name None
    else
      removeStateAndLocalStorage (Some LOGIN_ERROR) ;;
      ret false.

(** [logout(e)]; [e?.preventDefault()] concerns the DOM event only. *)
Definition logout : M unit :=
  invalidateAndLogout LOGOUT_SESSION.

(** [isAuthenticated && user && user.userId] *)
Definition session_user (a : AuthState) : option User :=
  if isAuthenticated a then
    match user a with
    | Some u => if truthy (Some (userId u)) then Some u else None
    | None => None
    end
  else None.

(** The first part of the [try] block of [getAccessToken]: [Some t]
    when it returns the persisted access token, [None] when control
    falls through to the silent refresh. *)
Definition check_access_token : M (option string) :=
  match r_accessToken r with
  | Some token =>
      if truthy (Some token) then
        jwtAccess <- call (CallVerify token)
                       (fun h => verifyAndExtractToken env h token) ;;
        if jwt_ok jwtAccess then ret (Some token) else ret None
      else ret None
  | None => ret None
  end.

(** [getAccessToken()] *)
Definition getAccessToken : M string :=
  try_catch
    (match session_user (r_authState r) with
     | Some u =>
         valid <- check_access_token ;;
         match valid with
         | Some token => ret token
         | None =>
             let request :=
               {| tm_accessToken := r_accessToken r;
                  tm_refreshToken := r_refreshToken r;
                  rf_clientId := clientId;
                  rf_userId := userId u;
                  rf_nonce := r_nonce r |} in
             res <- call (CallRefresh request)
                      (fun h => refreshtoken env h request) ;;
             if rf_status res =? "success" then
               setAccessToken (newAccessToken res) ;;
               setRefreshToken (newRefreshToken res) ;;
               ret (newAccessToken res)
             else
               invalidateAndLogout ACCESS_TOKEN_ERROR ;;
               ret EmptyString
         end
     | None =>
         invalidateAndLogout ACCESS_TOKEN_ERROR ;;
         ret EmptyString
     end)
    (invalidateAndLogout ACCESS_TOKEN_ERROR ;;
     ret EmptyString).

(** [getIdToken()]: [Some] for the token, [None] for [undefined]. *)
Definition getIdToken : M (option string) :=
  if isAuthenticated (r_authState r) && truthy (r_idToken r)
  then ret (r_idToken r)
  else ret None.

End Closures.

(** An operation invoked on the component as it stands: the closure comes
    from the render of the current state. *)
Definition invoke {A : Type} (op : Render -> M A) : M A :=
  fun c => op (render c) c.

End AuthProvider.

(** ** Storage that may throw *)

(** Modelled from the spec: the four persisted slots as the spec's
    [PersistedSlot], whose [set] and [remove] are storage accesses and
    may throw (the spec's TransportError).  The hook behind them,
    [useLocalStorage] of [@versini/ui-hooks], is not part of the source
    at hand. *)
Inductive Slot : Type :=
| IdTokenSlot
| AccessTokenSlot
| RefreshTokenSlot
| NonceSlot.

Inductive StorageOp : Type :=
| SetSlot (slot : Slot) (value : string)
| RemoveSlot (slot : Slot).

(** What the storage answers to an access requested on a component. *)
Definition Storage : Type := Component -> StorageOp -> Outcome unit.

(** The storage of the operations above: every access returns. *)
Definition reliable : Storage := fun _ _ => Returns tt.

Definition write (slot : Slot) (v : option string) : M unit :=
  match slot with
  | IdTokenSlot => writeIdToken v
  | AccessTokenSlot => writeAccessToken v
  | RefreshTokenSlot => writeRefreshToken v
  | NonceSlot => writeNonce v
  end.

(** One access: the slot is written when the storage returns, and left
    as it is when the storage throws. *)
Definition access (storage : Storage) (op : StorageOp) : M unit :=
  fun c =>
    match storage c op with
    | Returns _ =>
        match op with
        | SetSlot slot value => write slot (Some value) c
        | RemoveSlot slot => write slot None c
        end
    | Throws => (Throws, c)
    end.

(** The public operations over a storage that may throw: the text of
    the operations above, with every [set...] and [remove...] an access
    to [storage]. *)
Module Fallible.

Section Operations.

Variable env : Collaborators.
Variable storage : Storage.
Variable clientId : string.
Variable sessionExpiration : string.
Variable r : Render.

(** [removeStateAndLocalStorage(logoutReason?)] *)
Definition removeStateAndLocalStorage (reason : option string) : M unit :=
  setAuthState
    {| isLoading := true;
       isAuthenticated := false;
       user := None;
       logoutReason := Some (or_else reason EXPIRED_SESSION) |} ;;
  access storage (RemoveSlot IdTokenSlot) ;;
  access storage (RemoveSlot AccessTokenSlot) ;;
  access storage (RemoveSlot RefreshTokenSlot) ;;
  access storage (RemoveSlot NonceSlot).

(** [invalidateAndLogout(message)] *)
Definition invalidateAndLogout (message : string) : M unit :=
  removeStateAndLocalStorage (Some (or_else (Some message) EXPIRED_SESSION)) ;;
  call
    (CallLogoutUser
       {| lo_idToken := r_idToken r;
          lo_accessToken := r_accessToken r;
          lo_refreshToken := r_refreshToken r;
          lo_clientId := clientId |})
    (fun h => logoutUser env h
       {| lo_idToken := r_idToken r;
          lo_accessToken := r_accessToken r;
          lo_refreshToken := r_refreshToken r;
          lo_clientId := clientId |}) ;;
  updateAuthState (with_isLoading false).

(** The success branch of a login. *)
Definition authenticated (response : AuthResponse) (name : string)
    (reason : option string) : M bool :=
  access storage (SetSlot IdTokenSlot (auth_idToken response)) ;;
  access storage (SetSlot AccessTokenSlot (auth_accessToken response)) ;;
  access storage (SetSlot RefreshTokenSlot (auth_refreshToken response)) ;;
  setAuthState
    {| isLoading := false;
       isAuthenticated := true;
       user := Some {| userId := auth_userId response; username := name |};
       logoutReason := reason |} ;;
  ret true.

(** [login(username, password, type)] *)
Definition login (name password : string) (type : AuthType) : M bool :=
  _nonce <- call CallUuid (fun h => Returns (uuidv4 env h)) ;;
  access storage (SetSlot NonceSlot _nonce) ;;
  updateAuthState (with_isLoading true) ;;
  if is_code type then
    pair <- call CallPkce (pkceChallengePair env) ;;
    let preRequest :=
      {| pre_nonce := _nonce;
         pre_clientId := clientId;
         pre_code_challenge := code_challenge pair |} in
    preResponse <- call (CallPreAuth preRequest)
                     (fun h => getPreAuthCode env h preRequest) ;;
    if pre_status preResponse then
      let request :=
        {| req_username := name;
           req_password := password;
           req_clientId := clientId;
           req_sessionExpiration := sessionExpiration;
           req_nonce := _nonce;
           req_type := type;
           req_code := Some (pre_code preResponse);
           req_code_verifier := Some (code_verifier pair) |} in
      response <- call (CallAuthenticate request)
                    (fun h => authenticateUser env h request) ;;
      if auth_status response then
        authenticated response name (Some EmptyString)
      else
        removeStateAndLocalStorage (Some LOGIN_ERROR) ;;
        ret false
    else ret false
  else
    let request :=
      {| req_username := name;
         req_password := password;
         req_clientId := clientId;
         req_sessionExpiration := sessionExpiration;
         req_nonce := _nonce;
         req_type := type;
         req_code := None;
         req_code_verifier := None |} in
    response <- call (CallAuthenticate request)
                  (fun h => authenticateUser env h request) ;;
    if auth_status response then
      authenticated response name None
    else
      removeStateAndLocalStorage (Some LOGIN_ERROR) ;;
      ret false.

(** [logout(e)] *)
Definition logout : M unit :=
  invalidateAndLogout LOGOUT_SESSION.

(** [getAccessToken()] *)
Definition getAccessToken : M string :=
  try_catch
    (match session_user (r_authState r) with
     | Some u =>
         valid <- check_access_token env r ;;
         match valid with
         | Some token => ret token
         | None =>
             let request :=
               {| tm_accessToken := r_accessToken r;
                  tm_refreshToken := r_refreshToken r;
                  rf_clientId := clientId;
                  rf_userId := userId u;
                  rf_nonce := r_nonce r |} in
             res <- call (CallRefresh request)
                      (fun h => refreshtoken env h request) ;;
             if rf_status res =? "success" then
               access storage (SetSlot AccessTokenSlot (newAccessToken res)) ;;
               access storage (SetSlot RefreshTokenSlot (newRefreshToken res)) ;;
               ret (newAccessToken res)
             else
               invalidateAndLogout ACCESS_TOKEN_ERROR ;;
               ret EmptyString
         end
     | None =>
         invalidateAndLogout ACCESS_TOKEN_ERROR ;;
         ret EmptyString
     end)
    (invalidateAndLogout ACCESS_TOKEN_ERROR ;;
     ret EmptyString).

End Operations.

End Fallible.

(** ** Observations on a run *)

(** All four persisted slots read as absent. *)
Definition slots_absent (c : Component) : Prop :=
  idToken c = None /\ accessToken c = None /\
  refreshToken c = None /\ nonce c = None.

(** The calls made between an earlier component [c] and a later one [c']. *)
Definition calls_since (c c' : Component) : list Call :=
  skipn (length (history c)) (history c').

(** The component right after [removeStateAndLocalStorage], over history
    [h]. *)
Definition invalidated (loading : bool) (reason : string) (ref : bool)
    (h : list Call) : Component :=
  {| authState :=
       {| isLoading := loading;
          isAuthenticated := false;
          user := None;
          logoutReason := Some reason |};
     idToken := None; accessToken := None;
     refreshToken := None; nonce := None;
     effectDidRunRef := ref;
     history := h |}.

(** The request [invalidateAndLogout] sends to [logoutUser]. *)
Definition logout_request (clientId : string) (r : Render) : LogoutRequest :=
  {| lo_idToken := r_idToken r;
     lo_accessToken := r_accessToken r;
     lo_refreshToken := r_refreshToken r;
     lo_clientId := clientId |}.

(** ** Sample collaborators for concrete runs *)

Module Sample.

Definition pair : PkcePair :=
  {| code_verifier := "V"; code_challenge := "CH" |}.

Definition refused : AuthResponse :=
  {| auth_status := false;
     auth_idToken := EmptyString;
     auth_accessToken := EmptyString;
     auth_refreshToken := EmptyString;
     auth_userId := EmptyString |}.

Definition granted : AuthResponse :=
  {| auth_status := true;
     auth_idToken := "I1";
     auth_accessToken := "A1";
     auth_refreshToken := "R1";
     auth_userId := "u2" |}.

Definition rotated : RefreshResponse :=
  {| rf_status := "success";
     newAccessToken := "A2";
     newRefreshToken := "R2" |}.

Definition alice : Jwt :=
  {| payload_userId := "u1"; payload_username := "alice" |}.

Definition bob : User :=
  {| userId := "u2"; username := "bob" |}.

(** A service that rejects everything and never throws. *)
Definition rejecting : Collaborators :=
  {| uuidv4 := fun _ => "nonce-1";
     pkceChallengePair := fun _ => Returns pair;
     verifyAndExtractToken := fun _ _ => Returns None;
     getPreAuthCode := fun _ _ =>
       Returns {| pre_status := false; pre_code := EmptyString |};
     authenticateUser := fun _ _ => Returns refused;
     refreshtoken := fun _ _ =>
       Returns {| rf_status := "failure";
                  newAccessToken := EmptyString;
                  newRefreshToken := EmptyString |};
     logoutUser := fun _ _ => Returns tt |}.

(** A service that accepts: tokens [I1], [A1], [R1] for user [u2], and
    the rotated pair [A2], [R2] on refresh.  The identity token [I1]
    verifies with the claims of [alice]; no other token verifies. *)
Definition accepting : Collaborators :=
  {| uuidv4 := fun _ => "nonce-1";
     pkceChallengePair := fun _ => Returns pair;
     verifyAndExtractToken := fun _ t =>
       if t =? "I1" then Returns (Some alice) else Returns None;
     getPreAuthCode := fun _ _ =>
       Returns {| pre_status := true; pre_code := "C1" |};
     authenticateUser := fun _ _ => Returns granted;
     refreshtoken := fun _ _ => Returns rotated;
     logoutUser := fun _ _ => Returns tt |}.

(** As [accepting], but token verification throws. *)
Definition verify_throws : Collaborators :=
  {| uuidv4 := uuidv4 accepting;
     pkceChallengePair := pkceChallengePair accepting;
     verifyAndExtractToken := fun _ _ => Throws;
     getPreAuthCode := getPreAuthCode accepting;
     authenticateUser := authenticateUser accepting;
     refreshtoken := refreshtoken accepting;
     logoutUser := logoutUser accepting |}.


(** A signed-in component holding the triple [I1], [A1], [R1]. *)
Definition signed_in : Component :=
  {| authState :=
       {| isLoading := false; isAuthenticated := true;
          user := Some bob;
          logoutReason := Some EmptyString |};
     idToken := Some "I1"; accessToken := Some "A1";
     refreshToken := Some "R1"; nonce := Some "nonce-0";
     effectDidRunRef := true;
     history := [] |}.

(** A service that grants the exchange without a user id. *)
Definition granted_without_user_id : AuthResponse :=
  {| auth_status := true;
     auth_idToken := "I1";
     auth_accessToken := "A1";
     auth_refreshToken := "R1";
     auth_userId := EmptyString |}.

(** As [accepting], but the exchange is granted without a user id. *)
Definition anonymous : Collaborators :=
  {| uuidv4 := uuidv4 accepting;
     pkceChallengePair := pkceChallengePair accepting;
     verifyAndExtractToken := verifyAndExtractToken accepting;
     getPreAuthCode := getPreAuthCode accepting;
     authenticateUser := fun _ _ => Returns granted_without_user_id;
     refreshtoken := refreshtoken accepting;
     logoutUser := logoutUser accepting |}.



End Sample.

(** ** What [login] sends *)

(** The request of the pre-authorisation step of a CODE login started from
    [c] that drew the PKCE pair [pair]; the nonce is the one [uuidv4] gave
    at the start of the login. *)
Definition preauth_request (env : Collaborators) (clientId : string)
    (c : Component) (pair : PkcePair) : PreAuthRequest :=
  {| pre_nonce := uuidv4 env (history c);
     pre_clientId := clientId;
     pre_code_challenge := code_challenge pair |}.

(** The request of the token exchange of a login started from [c]: with
    the code and the verifier for the CODE grant, without them otherwise. *)
Definition exchange_request (env : Collaborators)
    (clientId sessionExpiration : string) (c : Component)
    (name password : string) (type : AuthType)
    (code verifier : option string) : AuthRequest :=
  {| req_username := name;
     req_password := password;
     req_clientId := clientId;
     req_sessionExpiration := sessionExpiration;
     req_nonce := uuidv4 env (history c);
     req_type := type;
     req_code := code;
     req_code_verifier := verifier |}.

(** The component after the success branch of a login started from [c]
    that made the calls [calls]. *)
Definition signed_in_as (env : Collaborators) (c : Component)
    (response : AuthResponse) (name : string) (reason : option string)
    (calls : list Call) : Component :=
  {| authState :=
       {| isLoading := false;
          isAuthenticated := true;
          user := Some {| userId := auth_userId response; username := name |};
          logoutReason := reason |};
     idToken := Some (auth_idToken response);
     accessToken := Some (auth_accessToken response);
     refreshToken := Some (auth_refreshToken response);
     nonce := Some (uuidv4 env (history c));
     effectDidRunRef := effectDidRunRef c;
     history := history c ++ calls |}.

(** ** What [getAccessToken] meets *)

(** The request of the silent refresh on behalf of user [u]. *)
Definition refresh_request (clientId : string) (r : Render) (u : User)
    : RefreshRequest :=
  {| tm_accessToken := r_accessToken r;
     tm_refreshToken := r_refreshToken r;
     rf_clientId := clientId;
     rf_userId := userId u;
     rf_nonce := r_nonce r |}.

(** The calls [getAccessToken] makes before it turns to the refresh: one
    verification when the access token slot holds a non-empty string. *)
Definition verify_calls (c : Component) : list Call :=
  match accessToken c with
  | Some token => if truthy (Some token) then [CallVerify token] else []
  | None => []
  end.

(** The persisted access token is not usable: the slot is absent or empty,
    or verification returns without a token or with an empty user id. *)
Definition access_token_invalid (env : Collaborators) (c : Component) : Prop :=
  match accessToken c with
  | Some token =>
      truthy (Some token) = true ->
      exists jwt,
        verifyAndExtractToken env (history c) token = Returns jwt /\
        jwt_ok jwt = false
  | None => True
  end.

(** ** Reachable components *)

(** [user] is present exactly when [isAuthenticated] holds. *)
Definition user_iff_authenticated (a : AuthState) : Prop :=
  isAuthenticated a = true <-> user a <> None.

Section Reachability.

Variable env : Collaborators.
Variable clientId : string.
Variable sessionExpiration : string.

(** The components a sequence of operations leads to, from a mount over
    any content of the four slots.  An operation counts whether it
    returned or threw, and its closure may stem from any render [r], the
    current one or a stale one. *)
Inductive reachable : Component -> Prop :=
| reach_mount (i a rf n : option string) :
    reachable (mount i a rf n)
| reach_bootstrap (c : Component) (r : Render) :
    reachable c ->
    reachable (after (bootstrap env clientId r) c)
| reach_login (c : Component) (name password : string) (type : AuthType) :
    reachable c ->
    reachable (after (login env clientId sessionExpiration name password type) c)
| reach_logout (c : Component) (r : Render) :
    reachable c ->
    reachable (after (logout env clientId r) c)
| reach_getAccessToken (c : Component) (r : Render) :
    reachable c ->
    reachable (after (getAccessToken env clientId r) c)
| reach_removeStateAndLocalStorage (c : Component) (reason : option string) :
    reachable c ->
    reachable (after (removeStateAndLocalStorage reason) c)
| reach_invalidateAndLogout (c : Component) (r : Render) (message : string) :
    reachable c ->
    reachable (after (invalidateAndLogout env clientId r message) c).

End Reachability.

(** [m] keeps [P], wherever it stops. *)
Definition preserves {A : Type} (P : Component -> Prop) (m : M A) : Prop :=
  forall c, P c -> P (snd (m c)).

(** The invariant of the session, on a component. *)
Definition consistent (c : Component) : Prop :=
  user_iff_authenticated (authState c).


(** ** Further observations *)

(** The session is torn down with reason [reason]: the four slots are
    absent, nobody is signed in, and the reason is recorded. *)
Definition invalidated_with (reason : string) (c : Component) : Prop :=
  slots_absent c /\
  isAuthenticated (authState c) = false /\
  user (authState c) = None /\
  logoutReason (authState c) = Some reason.

(** The three token slots of [c'] are those of [c]. *)
Definition tokens_kept (c c' : Component) : Prop :=
  idToken c' = idToken c /\
  accessToken c' = accessToken c /\
  refreshToken c' = refreshToken c.

(** The request of [call] is a [logoutUser] request. *)
Definition is_logoutUser (c : Call) : bool :=
  match c with CallLogoutUser _ => true | _ => false end.

Definition is_verify (c : Call) : bool :=
  match c with CallVerify _ => true | _ => false end.

Definition is_preauth (c : Call) : bool :=
  match c with CallPreAuth _ => true | _ => false end.

Definition is_pkce (c : Call) : bool :=
  match c with CallPkce => true | _ => false end.

(** A call of a login carries the nonce [n] and, in the exchange, the
    grant [type]; calls without a nonce pass. *)
Definition carries_nonce (n : string) (type : AuthType) (c : Call) : Prop :=
  match c with
  | CallPreAuth req => pre_nonce req = n
  | CallAuthenticate req => req_nonce req = n /\ req_type req = type
  | _ => True
  end.


(** Verification yields no usable token: it throws, it returns no token,
    or the token has an empty user id. *)
Definition verification_fails (o : Outcome (option Jwt)) : Prop :=
  match o with
  | Returns jwt => jwt_ok jwt = false
  | Throws => True
  end.

(** The bootstrap effect has run: its ref is set. *)
Definition guarded (c : Component) : Prop := effectDidRunRef c = true.

(** A call [getAccessToken] may make on component [c] in a run:
    the verification of the persisted access token, the refresh for the
    user of the session under the persisted nonce, or the logout
    notification with the persisted tokens. *)
Definition getAccessToken_call (clientId : string) (c : Component)
    (call : Call) : Prop :=
  match call with
  | CallVerify token => accessToken c = Some token
  | CallRefresh req =>
      exists u, user (authState c) = Some u /\
                req = refresh_request clientId (render c) u
  | CallLogoutUser req => req = logout_request clientId (render c)
  | _ => False
  end.

Section CurrentRender.

Variable env : Collaborators.
Variable clientId : string.
Variable sessionExpiration : string.

(** The components a sequence of operations leads to when the bootstrap
    effect runs with the render of the component it runs in, as an effect
    does; the closures of the other operations may stem from any render. *)
Inductive reachable_current : Component -> Prop :=
| current_mount (i a rf n : option string) :
    reachable_current (mount i a rf n)
| current_bootstrap (c : Component) :
    reachable_current c ->
    reachable_current (after (invoke (bootstrap env clientId)) c)
| current_login (c : Component) (name password : string) (type : AuthType) :
    reachable_current c ->
    reachable_current
      (after (login env clientId sessionExpiration name password type) c)
| current_logout (c : Component) (r : Render) :
    reachable_current c ->
    reachable_current (after (logout env clientId r) c)
| current_getAccessToken (c : Component) (r : Render) :
    reachable_current c ->
    reachable_current (after (getAccessToken env clientId r) c).

End CurrentRender.

(** ** Proof automation *)

(** Unfolds the operations down to the primitives of the monad. *)
Ltac unfold_ops :=
  unfold invoke, after, outcome, getIdToken, getAccessToken,
    check_access_token, logout, login, authenticated, bootstrap,
    bootstrap_task, detached, try_catch, bind, ret, call,
    readEffectDidRun, setEffectDidRun, updateAuthState, setAuthState,
    setIdToken, setAccessToken, setRefreshToken, setNonce,
    writeIdToken, writeAccessToken, writeRefreshToken, writeNonce in *.

(** ** How the operations run *)

Section Runs.

Variable env : Collaborators.
Variable clientId : string.
Variable sessionExpiration : string.

Lemma or_else_reason (reason : string) :
  or_else (Some (or_else (Some reason) EXPIRED_SESSION)) EXPIRED_SESSION
  = or_else (Some reason) EXPIRED_SESSION.
Proof.
  unfold or_else. destruct (reason =? EmptyString) eqn:E.
  - reflexivity.
  - rewrite E. reflexivity.
Qed.

Lemma skipn_history (h l : list Call) : skipn (length h) (h ++ l) = l.
Proof.
  induction h as [|x h IH]; simpl.
  - reflexivity.
  - exact IH.
Qed.

Lemma removeStateAndLocalStorage_run (reason : option string) (c : Component) :
  removeStateAndLocalStorage reason c
  = (Returns tt,
     invalidated true (or_else reason EXPIRED_SESSION)
       (effectDidRunRef c) (history c)).
Proof. reflexivity. Qed.

(** [invalidateAndLogout] clears everything, then depends on
    [logoutUser]: when that throws, [isLoading] stays [true]. *)
Lemma invalidateAndLogout_run (r : Render) (message : string) (c : Component) :
  invalidateAndLogout env clientId r message c
  = let reason := or_else (Some message) EXPIRED_SESSION in
    let h := history c ++ [CallLogoutUser (logout_request clientId r)] in
    match logoutUser env (history c) (logout_request clientId r) with
    | Returns _ => (Returns tt, invalidated false reason (effectDidRunRef c) h)
    | Throws => (Throws, invalidated true reason (effectDidRunRef c) h)
    end.
Proof.
  unfold invalidateAndLogout, bind.
  rewrite removeStateAndLocalStorage_run, or_else_reason.
  unfold call, logout_request, invalidated; simpl.
  destruct (logoutUser env (history c) _); reflexivity.
Qed.

End Runs.

(** ** Invalidation *)

(** C4.  After [removeStateAndLocalStorage], and after
    [invalidateAndLogout] whether its [logoutUser] call returned or threw,
    from any component and for any reason, the four persisted slots
    [idToken], [accessToken], [refreshToken] and [nonce] are absent. *)
Theorem invalidate_clears_all_slots
    (env : Collaborators) (clientId : string) (r : Render)
    (reason : option string) (message : string) (c : Component) :
  slots_absent (after (removeStateAndLocalStorage reason) c) /\
  slots_absent (after (invalidateAndLogout env clientId r message) c).
Proof.
  unfold after. split.
  - rewrite removeStateAndLocalStorage_run. repeat split.
  - rewrite invalidateAndLogout_run. simpl.
    destruct (logoutUser env (history c) _); repeat split.
Qed.

(** ** The session invariant *)

Section Preservation.

Variable P : Component -> Prop.

Lemma preserves_ret {A : Type} (a : A) : preserves P (ret a).
Proof. intros c H. exact H. Qed.

Lemma preserves_bind {A B : Type} (m : M A) (k : A -> M B) :
  preserves P m -> (forall a, preserves P (k a)) -> preserves P (bind m k).
Proof.
  intros Hm Hk c H. unfold bind.
  specialize (Hm c H). destruct (m c) as [[a|] c']; simpl in *.
  - apply Hk, Hm.
  - exact Hm.
Qed.

Lemma preserves_try_catch {A : Type} (m handler : M A) :
  preserves P m -> preserves P handler -> preserves P (try_catch m handler).
Proof.
  intros Hm Hh c H. unfold try_catch.
  specialize (Hm c H). destruct (m c) as [[a|] c']; simpl in *.
  - exact Hm.
  - apply Hh, Hm.
Qed.

Lemma preserves_detached (m : M unit) :
  preserves P m -> preserves P (detached m).
Proof. intros Hm c H. unfold detached; simpl. apply Hm, H. Qed.

End Preservation.

Section Invariant.

Variable env : Collaborators.
Variable clientId : string.
Variable sessionExpiration : string.

Lemma consistent_call {A : Type} (what : Call) (f : list Call -> Outcome A) :
  preserves consistent (call what f).
Proof. intros c H. exact H. Qed.

Lemma consistent_setAuthState (a : AuthState) :
  user_iff_authenticated a -> preserves consistent (setAuthState a).
Proof. intros Ha c _. exact Ha. Qed.

Lemma consistent_with_isLoading (b : bool) :
  preserves consistent (updateAuthState (with_isLoading b)).
Proof.
  intros c H. unfold consistent, user_iff_authenticated in *; simpl. exact H.
Qed.

Lemma consistent_writeIdToken (v : option string) :
  preserves consistent (writeIdToken v).
Proof. intros c H. exact H. Qed.

Lemma consistent_writeAccessToken (v : option string) :
  preserves consistent (writeAccessToken v).
Proof. intros c H. exact H. Qed.

Lemma consistent_writeRefreshToken (v : option string) :
  preserves consistent (writeRefreshToken v).
Proof. intros c H. exact H. Qed.

Lemma consistent_writeNonce (v : option string) :
  preserves consistent (writeNonce v).
Proof. intros c H. exact H. Qed.

Lemma consistent_ref :
  preserves consistent readEffectDidRun /\
  forall b, preserves consistent (setEffectDidRun b).
Proof. split; [|intros b]; intros c H; exact H. Qed.

Lemma signed_out_consistent (b : bool) (reason : option string) :
  user_iff_authenticated
    {| isLoading := b; isAuthenticated := false;
       user := None; logoutReason := reason |}.
Proof. unfold user_iff_authenticated; simpl. split; [discriminate | congruence]. Qed.

Lemma signed_in_consistent (b : bool) (u : User) (reason : option string) :
  user_iff_authenticated
    {| isLoading := b; isAuthenticated := true;
       user := Some u; logoutReason := reason |}.
Proof. unfold user_iff_authenticated; simpl. split; [discriminate | reflexivity]. Qed.

Lemma removeStateAndLocalStorage_consistent (reason : option string) :
  preserves consistent (removeStateAndLocalStorage reason).
Proof.
  intros c _. rewrite removeStateAndLocalStorage_run.
  apply signed_out_consistent.
Qed.

Lemma invalidateAndLogout_consistent (r : Render) (message : string) :
  preserves consistent (invalidateAndLogout env clientId r message).
Proof.
  intros c _. rewrite invalidateAndLogout_run. simpl.
  destruct (logoutUser env (history c) _); apply signed_out_consistent.
Qed.

(** A preservation proof follows the shape of the code: one rule for
    each construct, chosen by the head of the computation. *)
Ltac preserve :=
  repeat lazymatch goal with
    | |- preserves _ (bind _ _) => apply preserves_bind; [| intros ?]
    | |- preserves _ (try_catch _ _) => apply preserves_try_catch
    | |- preserves _ (detached _) => apply preserves_detached
    | |- preserves _ (ret _) => apply preserves_ret
    | |- preserves _ (call _ _) => apply consistent_call
    | |- preserves _ (updateAuthState (with_isLoading _)) =>
        apply consistent_with_isLoading
    | |- preserves _ (setAuthState _) =>
        apply consistent_setAuthState;
        first [apply signed_out_consistent | apply signed_in_consistent]
    | |- preserves _ (setIdToken _) => apply consistent_writeIdToken
    | |- preserves _ (setAccessToken _) => apply consistent_writeAccessToken
    | |- preserves _ (setRefreshToken _) => apply consistent_writeRefreshToken
    | |- preserves _ (setNonce _) => apply consistent_writeNonce
    | |- preserves _ readEffectDidRun => apply (proj1 consistent_ref)
    | |- preserves _ (setEffectDidRun _) => apply (proj2 consistent_ref)
    | |- preserves _ (removeStateAndLocalStorage _) =>
        apply removeStateAndLocalStorage_consistent
    | |- preserves _ (invalidateAndLogout _ _ _ _) =>
        apply invalidateAndLogout_consistent
    | |- preserves _ (if ?b then _ else _) => destruct b
    | |- preserves _ (match ?x with _ => _ end) => destruct x
    end.

Lemma bootstrap_consistent (r : Render) :
  preserves consistent (bootstrap env clientId r).
Proof. unfold bootstrap, bootstrap_task. preserve. Qed.

Lemma login_consistent (name password : string) (type : AuthType) :
  preserves consistent (login env clientId sessionExpiration name password type).
Proof. unfold login, authenticated. preserve. Qed.

Lemma getAccessToken_consistent (r : Render) :
  preserves consistent (getAccessToken env clientId r).
Proof. unfold getAccessToken, check_access_token. preserve. Qed.

Lemma mount_consistent (i a rf n : option string) :
  consistent (mount i a rf n).
Proof. apply signed_out_consistent. Qed.

End Invariant.

(** C5.  Every component reachable through bootstrap, login, logout,
    getAccessToken and the two forms of Invalidate has [isAuthenticated]
    true if and only if its [user] is present. *)
Theorem authenticated_iff_user_present
    (env : Collaborators) (clientId sessionExpiration : string)
    (c : Component) :
  reachable env clientId sessionExpiration c ->
  isAuthenticated (authState c) = true <-> user (authState c) <> None.
Proof.
  intros H. change (consistent c).
  induction H.
  - apply mount_consistent.
  - apply bootstrap_consistent, IHreachable.
  - apply login_consistent, IHreachable.
  - apply invalidateAndLogout_consistent, IHreachable.
  - apply getAccessToken_consistent, IHreachable.
  - apply removeStateAndLocalStorage_consistent, IHreachable.
  - apply invalidateAndLogout_consistent, IHreachable.
Qed.

(** A signed-in component, reached by a CODE login after mount. *)
Lemma authenticated_iff_user_present_witness :
  let c := after (login Sample.accepting "app" "1d" "bob" "pw" CODE)
             (mount None None None None) in
  (isAuthenticated (authState c) = true <-> user (authState c) <> None)
  /\ isAuthenticated (authState c) = true.
Proof.
  split.
  - apply (@authenticated_iff_user_present Sample.accepting "app" "1d").
    apply reach_login, reach_mount.
  - reflexivity.
Defined.

(** ** The identity token *)

Lemma truthy_spec (v : option string) :
  truthy v = true <-> exists s, v = Some s /\ s <> EmptyString.
Proof.
  destruct v as [s|]; simpl.
  - destruct (String.eqb_spec s EmptyString); simpl; split.
    + discriminate.
    + intros (s' & E & Hs). inversion E; subst. contradiction.
    + intros _. exists s. split; [reflexivity | assumption].
    + reflexivity.
  - split; [discriminate | intros (s & E & _); discriminate].
Qed.

Lemma getIdToken_run (c : Component) :
  invoke getIdToken c
  = (Returns (if isAuthenticated (authState c) && truthy (idToken c)
              then idToken c else None), c).
Proof.
  unfold invoke, getIdToken, ret, render; simpl.
  destruct (isAuthenticated (authState c) && truthy (idToken c)); reflexivity.
Qed.

(** C10.  [getIdToken] returns the persisted identity token exactly when
    the session is authenticated and the slot holds a non-empty string; in
    every other case it returns [undefined].  It changes nothing and calls
    nobody: the component, its history included, is the same afterwards. *)
Theorem getIdToken_spec (c : Component) :
  (forall token,
      outcome (invoke getIdToken) c = Returns (Some token) <->
      isAuthenticated (authState c) = true /\
      idToken c = Some token /\ token <> EmptyString) /\
  (outcome (invoke getIdToken) c = Returns None <->
   ~ (isAuthenticated (authState c) = true /\
      exists token, idToken c = Some token /\ token <> EmptyString)) /\
  after (invoke getIdToken) c = c.
Proof.
  unfold outcome, after. rewrite getIdToken_run. simpl.
  pose proof (truthy_spec (idToken c)) as T.
  destruct (isAuthenticated (authState c)); simpl.
  - destruct (truthy (idToken c)).
    + destruct (proj1 T eq_refl) as (s & E & Hs). rewrite E.
      split; [intros token; split | split; [split|reflexivity]].
      * intros H. inversion H; subst. repeat split; assumption.
      * intros (_ & E' & _). rewrite E'. reflexivity.
      * discriminate.
      * intros H. exfalso. apply H. split; [reflexivity|].
        exists s. split; [reflexivity | assumption].
    + assert (F : forall token, idToken c = Some token -> token <> EmptyString -> False).
      { intros token E Hs.
        assert (false = true) by (apply T; exists token; split; assumption).
        discriminate. }
      split; [intros token; split | split; [split|reflexivity]].
      * discriminate.
      * intros (_ & E & Hs). destruct (F token E Hs).
      * intros _ (_ & token & E & Hs). exact (F token E Hs).
      * reflexivity.
  - split; [intros token; split | split; [split|reflexivity]].
    + discriminate.
    + intros (F & _). discriminate.
    + intros _ (F & _). discriminate.
    + reflexivity.
Qed.

(** ** Bootstrap *)

(** C6.  At mount, a persisted identity token that verifies with a
    non-empty user id makes the component authenticated as the user of the
    token's claims, with [logoutReason] the empty string; without a
    persisted identity token the component ends not loading, not
    authenticated, with reason the empty string and without a single
    call. *)
Theorem bootstrap_deterministic
    (env : Collaborators) (clientId : string) (i a rf n : option string) :
  let c' := after (invoke (bootstrap env clientId)) (mount i a rf n) in
  (forall token jwt,
      i = Some token ->
      verifyAndExtractToken env [] token = Returns (Some jwt) ->
      payload_userId jwt <> EmptyString ->
      authState c' =
        {| isLoading := false;
           isAuthenticated := true;
           user := Some {| userId := payload_userId jwt;
                           username := payload_username jwt |};
           logoutReason := Some EmptyString |}
      /\ count_calls is_remote (history c') = 0) /\
  (i = None ->
   authState c' =
     {| isLoading := false; isAuthenticated := false;
        user := None; logoutReason := Some EmptyString |}
   /\ history c' = []).
Proof.
  split.
  - intros token jwt -> Hv Hid.
    unfold_ops; simpl. rewrite Hv.
    apply String.eqb_neq in Hid. rewrite Hid. simpl. split; reflexivity.
  - intros ->. split; reflexivity.
Qed.

(** The two cases of the scenario: the token [I1] of [alice], and no
    token. *)
Lemma bootstrap_deterministic_witness :
  (authState (after (invoke (bootstrap Sample.accepting "app"))
                (mount (Some "I1") None None None)) =
     {| isLoading := false;
        isAuthenticated := true;
        user := Some {| userId := "u1"; username := "alice" |};
        logoutReason := Some EmptyString |}) /\
  (authState (after (invoke (bootstrap Sample.accepting "app"))
                (mount None None None None)) =
     {| isLoading := false; isAuthenticated := false;
        user := None; logoutReason := Some EmptyString |}
   /\ history (after (invoke (bootstrap Sample.accepting "app"))
                 (mount None None None None)) = []).
Proof.
  split.
  - apply (proj1 (bootstrap_deterministic Sample.accepting "app"
                    (Some "I1") None None None)
             "I1" {| payload_userId := "u1"; payload_username := "alice" |}).
    + reflexivity.
    + reflexivity.
    + discriminate.
  - apply (proj2 (bootstrap_deterministic Sample.accepting "app"
                    None None None None)).
    reflexivity.
Defined.

(** ** Login *)

Section Login.

Variable env : Collaborators.
Variable clientId : string.
Variable sessionExpiration : string.

(** A CODE login whose pre-authorisation is refused: the run in full. *)
Lemma login_code_rejected_run (c : Component) (name password : string)
    (pair : PkcePair) (preResponse : PreAuthResponse) :
  pkceChallengePair env (history c ++ [CallUuid]) = Returns pair ->
  getPreAuthCode env ((history c ++ [CallUuid]) ++ [CallPkce])
    (preauth_request env clientId c pair) = Returns preResponse ->
  pre_status preResponse = false ->
  login env clientId sessionExpiration name password CODE c
  = (Returns false,
     {| authState := with_isLoading true (authState c);
        idToken := idToken c;
        accessToken := accessToken c;
        refreshToken := refreshToken c;
        nonce := Some (uuidv4 env (history c));
        effectDidRunRef := effectDidRunRef c;
        history :=
          ((history c ++ [CallUuid]) ++ [CallPkce])
            ++ [CallPreAuth (preauth_request env clientId c pair)] |}).
Proof.
  intros Hpkce Hpre Hstatus.
  unfold_ops; simpl. rewrite Hpkce.
  unfold preauth_request in Hpre; rewrite Hpre. rewrite Hstatus.
  reflexivity.
Qed.

(** C8.  A CODE login whose [getPreAuthCode] answers with a false status
    returns [false], never calls [authenticateUser], and leaves the three
    token slots as they were: it persists no token. *)
Theorem login_code_preauth_rejection (c : Component)
    (name password : string) (pair : PkcePair)
    (preResponse : PreAuthResponse) :
  pkceChallengePair env (history c ++ [CallUuid]) = Returns pair ->
  getPreAuthCode env ((history c ++ [CallUuid]) ++ [CallPkce])
    (preauth_request env clientId c pair) = Returns preResponse ->
  pre_status preResponse = false ->
  let run := login env clientId sessionExpiration name password CODE in
  outcome run c = Returns false /\
  count_calls is_authenticate (calls_since c (after run c)) = 0 /\
  idToken (after run c) = idToken c /\
  accessToken (after run c) = accessToken c /\
  refreshToken (after run c) = refreshToken c.
Proof.
  intros Hpkce Hpre Hstatus run. unfold run, outcome, after, calls_since.
  rewrite (login_code_rejected_run c name password Hpkce Hpre Hstatus).
  simpl. rewrite <- !app_assoc, skipn_history.
  repeat split.
Qed.

End Login.

(** A rejected CODE login of [bob] on a fresh mount. *)
Lemma login_code_preauth_rejection_witness :
  let run := login Sample.rejecting "app" "1d" "bob" "pw" CODE in
  let c := mount None None None None in
  outcome run c = Returns false /\
  count_calls is_authenticate (calls_since c (after run c)) = 0 /\
  idToken (after run c) = idToken c /\
  accessToken (after run c) = accessToken c /\
  refreshToken (after run c) = refreshToken c.
Proof.
  apply (@login_code_preauth_rejection Sample.rejecting "app" "1d"
           (mount None None None None) "bob" "pw"
           {| code_verifier := "V"; code_challenge := "CH" |}
           {| pre_status := false; pre_code := EmptyString |});
    reflexivity.
Defined.

(** ** The access token *)

Section AccessToken.

Variable env : Collaborators.
Variable clientId : string.

Lemma session_user_signed_in (a : AuthState) (u : User) :
  isAuthenticated a = true -> user a = Some u -> userId u <> EmptyString ->
  session_user a = Some u.
Proof.
  intros Ha Hu Hid. unfold session_user. rewrite Ha, Hu. simpl.
  apply String.eqb_neq in Hid. rewrite Hid. reflexivity.
Qed.

(** With an unusable access token the check falls through, after the
    calls of [verify_calls]. *)
Lemma check_access_token_invalid (c : Component) :
  access_token_invalid env c ->
  check_access_token env (render c) c
  = (Returns None,
     {| authState := authState c;
        idToken := idToken c; accessToken := accessToken c;
        refreshToken := refreshToken c; nonce := nonce c;
        effectDidRunRef := effectDidRunRef c;
        history := history c ++ verify_calls c |}).
Proof.
  unfold access_token_invalid, check_access_token, verify_calls, render; simpl.
  destruct c as [st i a rf n ref h]; simpl.
  destruct a as [token|]; simpl.
  - destruct (negb (token =? EmptyString)) eqn:E.
    + intros H. destruct (H eq_refl) as (jwt & Hv & Hok).
      unfold bind, call; simpl. rewrite Hv, Hok. reflexivity.
    + intros _. unfold ret. rewrite app_nil_r. reflexivity.
  - intros _. unfold ret. rewrite app_nil_r. reflexivity.
Qed.

(** The silent refresh that succeeds: the run in full. *)
Lemma getAccessToken_refresh_run (c : Component) (u : User)
    (res : RefreshResponse) :
  isAuthenticated (authState c) = true ->
  user (authState c) = Some u ->
  userId u <> EmptyString ->
  access_token_invalid env c ->
  refreshtoken env (history c ++ verify_calls c)
    (refresh_request clientId (render c) u) = Returns res ->
  rf_status res = "success" ->
  invoke (getAccessToken env clientId) c
  = (Returns (newAccessToken res),
     {| authState := authState c;
        idToken := idToken c;
        accessToken := Some (newAccessToken res);
        refreshToken := Some (newRefreshToken res);
        nonce := nonce c;
        effectDidRunRef := effectDidRunRef c;
        history :=
          (history c ++ verify_calls c)
            ++ [CallRefresh (refresh_request clientId (render c) u)] |}).
Proof.
  intros Ha Hu Hid Hinvalid Hrefresh Hstatus.
  unfold invoke, getAccessToken, try_catch.
  change (r_authState (render c)) with (authState c).
  rewrite (session_user_signed_in _ Ha Hu Hid).
  unfold bind at 1. rewrite (check_access_token_invalid c Hinvalid).
  unfold bind at 1, call at 1; cbn [history].
  unfold refresh_request in *. rewrite Hrefresh, Hstatus.
  rewrite String.eqb_refl. reflexivity.
Qed.

Lemma one_refresh_call (c : Component) (req : RefreshRequest) :
  count_calls is_refresh (verify_calls c ++ [CallRefresh req]) = 1.
Proof.
  unfold count_calls, verify_calls.
  destruct (accessToken c) as [token|]; [destruct (truthy (Some token))|];
    reflexivity.
Qed.

(** C7.  From an authenticated component whose user has a user id and
    whose persisted access token is unusable, [getAccessToken] makes
    exactly one refresh call; when that call answers with status
    [success], the access and refresh slots hold the new pair afterwards
    and the new access token is returned. *)
Theorem refresh_rotation (c : Component) (u : User) (res : RefreshResponse) :
  isAuthenticated (authState c) = true ->
  user (authState c) = Some u ->
  userId u <> EmptyString ->
  access_token_invalid env c ->
  refreshtoken env (history c ++ verify_calls c)
    (refresh_request clientId (render c) u) = Returns res ->
  rf_status res = "success" ->
  let run := invoke (getAccessToken env clientId) in
  outcome run c = Returns (newAccessToken res) /\
  accessToken (after run c) = Some (newAccessToken res) /\
  refreshToken (after run c) = Some (newRefreshToken res) /\
  count_calls is_refresh (calls_since c (after run c)) = 1.
Proof.
  intros Ha Hu Hid Hinvalid Hrefresh Hstatus run.
  unfold run, outcome, after, calls_since.
  rewrite (getAccessToken_refresh_run c Ha Hu Hid Hinvalid Hrefresh Hstatus).
  simpl. rewrite <- app_assoc, skipn_history.
  repeat split. apply one_refresh_call.
Qed.

(** The request [invalidateAndLogout] sends when [getAccessToken] gives
    up on [c]. *)
Lemma getAccessToken_verify_throws_run (c : Component) (u : User)
    (token : string) :
  isAuthenticated (authState c) = true ->
  user (authState c) = Some u ->
  userId u <> EmptyString ->
  accessToken c = Some token ->
  token <> EmptyString ->
  verifyAndExtractToken env (history c) token = Throws ->
  invoke (getAccessToken env clientId) c
  = let h := (history c ++ [CallVerify token])
               ++ [CallLogoutUser (logout_request clientId (render c))] in
    match logoutUser env (history c ++ [CallVerify token])
            (logout_request clientId (render c)) with
    | Returns _ =>
        (Returns EmptyString, invalidated false ACCESS_TOKEN_ERROR (effectDidRunRef c) h)
    | Throws =>
        (Throws, invalidated true ACCESS_TOKEN_ERROR (effectDidRunRef c) h)
    end.
Proof.
  intros Ha Hu Hid Htoken Hne Hthrows.
  unfold invoke, getAccessToken, try_catch.
  change (r_authState (render c)) with (authState c).
  rewrite (session_user_signed_in _ Ha Hu Hid).
  unfold bind at 1. unfold check_access_token.
  replace (r_accessToken (render c)) with (Some token)
    by (symmetry; exact Htoken).
  apply String.eqb_neq in Hne. unfold truthy. rewrite Hne.
  cbn [negb]. unfold bind at 1, call at 1. rewrite Hthrows.
  unfold bind at 1. rewrite invalidateAndLogout_run.
  cbn [history effectDidRunRef]. cbv zeta.
  destruct (logoutUser env (history c ++ [CallVerify token]) _); reflexivity.
Qed.

End AccessToken.

(** A signed-in component whose access token [A1] no longer verifies:
    the refresh rotates the pair to [A2], [R2]. *)
Lemma refresh_rotation_witness :
  let run := invoke (getAccessToken Sample.accepting "app") in
  outcome run Sample.signed_in = Returns "A2" /\
  accessToken (after run Sample.signed_in) = Some "A2" /\
  refreshToken (after run Sample.signed_in) = Some "R2" /\
  count_calls is_refresh
    (calls_since Sample.signed_in (after run Sample.signed_in)) = 1.
Proof.
  apply (@refresh_rotation Sample.accepting "app" Sample.signed_in
           {| userId := "u2"; username := "bob" |}
           {| rf_status := "success";
              newAccessToken := "A2"; newRefreshToken := "R2" |}).
  - reflexivity.
  - reflexivity.
  - discriminate.
  - intros _. exists None. split; reflexivity.
  - reflexivity.
  - reflexivity.
Defined.

(** C7, as stated, fails.  A PASSWORD login that the service grants
    without a user id leaves an authenticated component; its access token
    does not verify and every refresh would succeed; yet [getAccessToken]
    makes no refresh call: the guard on the user id sends it to the
    invalidation, and it returns the empty string. *)
Lemma refresh_rotation_counterexample :
  let c := after (login Sample.anonymous "app" "1d" "bob" "pw" PASSWORD)
             (mount None None None None) in
  let run := invoke (getAccessToken Sample.anonymous "app") in
  (reachable Sample.anonymous "app" "1d" c /\
   isAuthenticated (authState c) = true /\
   user (authState c)
     = Some {| userId := EmptyString; username := "bob" |} /\
   access_token_invalid Sample.anonymous c /\
   (forall h req, refreshtoken Sample.anonymous h req = Returns Sample.rotated)) /\
  (count_calls is_refresh (calls_since c (after run c)) = 0 /\
   outcome run c = Returns EmptyString /\
   accessToken (after run c) = None /\
   refreshToken (after run c) = None).
Proof.
  cbv zeta. split.
  - split; [apply reach_login, reach_mount|].
    repeat split.
    intros _. exists None. split; reflexivity.
  - repeat split.
Qed.

(** C2, as the code has it.  When the session is authenticated, with a
    user id, and [verifyAndExtractToken] throws on the persisted access
    token, [getAccessToken] does not treat the token as an invalid one:
    it makes no refresh call.  After the verification its one further
    call is the [logoutUser] of the [catch] clause, with the persisted
    tokens; the session is invalidated with reason [access token error],
    which empties the four slots; and [getAccessToken] returns the empty
    string when that [logoutUser] returns and throws when it throws. *)
Theorem getAccessToken_verify_throws
    (env : Collaborators) (clientId : string)
    (c : Component) (u : User) (token : string) :
  isAuthenticated (authState c) = true ->
  user (authState c) = Some u ->
  userId u <> EmptyString ->
  accessToken c = Some token ->
  token <> EmptyString ->
  verifyAndExtractToken env (history c) token = Throws ->
  let run := invoke (getAccessToken env clientId) in
  let notify :=
    {| lo_idToken := idToken c;
       lo_accessToken := accessToken c;
       lo_refreshToken := refreshToken c;
       lo_clientId := clientId |} in
  calls_since c (after run c) = [CallVerify token; CallLogoutUser notify] /\
  count_calls is_refresh (calls_since c (after run c)) = 0 /\
  slots_absent (after run c) /\
  isAuthenticated (authState (after run c)) = false /\
  user (authState (after run c)) = None /\
  logoutReason (authState (after run c)) = Some ACCESS_TOKEN_ERROR /\
  outcome run c
  = match logoutUser env (history c ++ [CallVerify token]) notify with
    | Returns _ => Returns EmptyString
    | Throws => Throws
    end.
Proof.
  intros Ha Hu Hid Htoken Hne Hthrows run notify.
  unfold run, notify, outcome, after, calls_since.
  rewrite (@getAccessToken_verify_throws_run env clientId c u token
             Ha Hu Hid Htoken Hne Hthrows).
  cbv zeta. unfold logout_request, render. cbn [r_idToken r_accessToken
    r_refreshToken].
  destruct (logoutUser env (history c ++ [CallVerify token]) _); simpl;
    rewrite <- app_assoc, skipn_history;
    repeat split.
Qed.

Lemma getAccessToken_verify_throws_witness :
  let c := Sample.signed_in in
  let run := invoke (getAccessToken Sample.verify_throws "app") in
  calls_since c (after run c)
  = [CallVerify "A1";
     CallLogoutUser
       {| lo_idToken := Some "I1";
          lo_accessToken := Some "A1";
          lo_refreshToken := Some "R1";
          lo_clientId := "app" |}] /\
  count_calls is_refresh (calls_since c (after run c)) = 0 /\
  slots_absent (after run c) /\
  isAuthenticated (authState (after run c)) = false /\
  user (authState (after run c)) = None /\
  logoutReason (authState (after run c)) = Some ACCESS_TOKEN_ERROR /\
  outcome run c = Returns EmptyString.
Proof.
  exact (@getAccessToken_verify_throws Sample.verify_throws "app"
           Sample.signed_in Sample.bob "A1"
           eq_refl eq_refl ltac:(discriminate)
           eq_refl ltac:(discriminate) eq_refl).
Defined.

(** C2, as stated, fails.  The same signed-in component, the same service
    whose refresh would succeed: when verification returns without a token
    the refresh is made and [A2] is returned; when verification throws no
    refresh is made and the empty string is returned. *)
Lemma getAccessToken_verify_throws_counterexample :
  let c := Sample.signed_in in
  let invalid := invoke (getAccessToken Sample.accepting "app") in
  let throwing := invoke (getAccessToken Sample.verify_throws "app") in
  (isAuthenticated (authState c) = true /\
   accessToken c = Some "A1" /\
   verifyAndExtractToken Sample.accepting (history c) "A1" = Returns None /\
   verifyAndExtractToken Sample.verify_throws (history c) "A1" = Throws) /\
  (outcome invalid c = Returns "A2" /\
   count_calls is_refresh (calls_since c (after invalid c)) = 1) /\
  (outcome throwing c = Returns EmptyString /\
   count_calls is_refresh (calls_since c (after throwing c)) = 0) /\
  outcome throwing c <> outcome invalid c.
Proof.
  repeat split; try reflexivity. discriminate.
Qed.

(** ** Exceptions *)

Section Exceptions.






End Exceptions.

(** ** Exceptions over a storage that may throw *)

Section FallibleExceptions.

Variable env : Collaborators.
Variable storage : Storage.
Variable clientId : string.
Variable sessionExpiration : string.

(** With the reliable storage the operations are those of the
    component. *)
Lemma reliable_operations (r : Render) (c : Component) :
  (forall name password type,
      Fallible.login env reliable clientId sessionExpiration
        name password type c
      = login env clientId sessionExpiration name password type c) /\
  Fallible.logout env reliable clientId r c = logout env clientId r c /\
  Fallible.getAccessToken env reliable clientId r c
  = getAccessToken env clientId r c.
Proof. repeat split. Qed.


Hypothesis removals_return :
  forall c slot, returned (storage c (RemoveSlot slot)) = true.


Hypothesis logoutUser_returns :
  forall h req, returned (logoutUser env h req) = true.



End FallibleExceptions.





(** ** The token exchange of a login *)

Section Exchange.

Variable env : Collaborators.
Variable clientId : string.
Variable sessionExpiration : string.

(** A PASSWORD login whose exchange returns: the run in full.  The
    success branch leaves [logoutReason] out of the new state. *)
Lemma login_password_run (c : Component) (name password : string)
    (response : AuthResponse) :
  let request :=
    exchange_request env clientId sessionExpiration c name password
      PASSWORD None None in
  authenticateUser env (history c ++ [CallUuid]) request = Returns response ->
  login env clientId sessionExpiration name password PASSWORD c
  = if auth_status response
    then (Returns true,
          signed_in_as env c response name None
            [CallUuid; CallAuthenticate request])
    else (Returns false,
          invalidated true LOGIN_ERROR (effectDidRunRef c)
            (history c ++ [CallUuid; CallAuthenticate request])).
Proof.
  intros request Hauth. unfold request, exchange_request in *.
  unfold_ops; simpl. rewrite Hauth.
  destruct (auth_status response);
    unfold signed_in_as, invalidated; simpl;
    rewrite <- app_assoc; reflexivity.
Qed.

(** A CODE login whose pre-authorisation is granted and whose exchange
    returns: the run in full.  The success branch sets [logoutReason] to
    the empty string. *)
Lemma login_code_run (c : Component) (name password : string)
    (pair : PkcePair) (preResponse : PreAuthResponse)
    (response : AuthResponse) :
  let preRequest := preauth_request env clientId c pair in
  let request :=
    exchange_request env clientId sessionExpiration c name password
      CODE (Some (pre_code preResponse)) (Some (code_verifier pair)) in
  pkceChallengePair env (history c ++ [CallUuid]) = Returns pair ->
  getPreAuthCode env ((history c ++ [CallUuid]) ++ [CallPkce]) preRequest
    = Returns preResponse ->
  pre_status preResponse = true ->
  authenticateUser env
    (((history c ++ [CallUuid]) ++ [CallPkce]) ++ [CallPreAuth preRequest])
    request = Returns response ->
  login env clientId sessionExpiration name password CODE c
  = if auth_status response
    then (Returns true,
          signed_in_as env c response name (Some EmptyString)
            [CallUuid; CallPkce; CallPreAuth preRequest;
             CallAuthenticate request])
    else (Returns false,
          invalidated true LOGIN_ERROR (effectDidRunRef c)
            (history c ++ [CallUuid; CallPkce; CallPreAuth preRequest;
                           CallAuthenticate request])).
Proof.
  intros preRequest request Hpkce Hpre Hstatus Hauth.
  unfold preRequest, request, preauth_request, exchange_request in *.
  unfold_ops; simpl. rewrite Hpkce, Hpre, Hstatus. simpl. rewrite Hauth.
  destruct (auth_status response);
    unfold signed_in_as, invalidated; simpl;
    rewrite <- !app_assoc; reflexivity.
Qed.

End Exchange.

(** C1: what the code does where the claim fails.  A CODE login whose
    pre-authorisation is refused returns [false] and invalidates nothing:
    on a signed-out component the fresh nonce stays persisted,
    [logoutReason] stays empty and [isLoading] stays [true]; on a signed-in
    component the session and its three tokens stay as well.  The refused
    PASSWORD login invalidates with reason [login failed]. *)
Example login_code_preauth_rejected_not_invalidated :
  let signed_out :=
    after (invoke (bootstrap Sample.rejecting "app"))
      (mount None None None None) in
  let code := login Sample.rejecting "app" "1d" "bob" "pw" CODE in
  let password := login Sample.rejecting "app" "1d" "bob" "pw" PASSWORD in
  (outcome code signed_out = Returns false /\
   nonce (after code signed_out) = Some "nonce-1" /\
   authState (after code signed_out)
     = {| isLoading := true; isAuthenticated := false;
          user := None; logoutReason := Some EmptyString |}) /\
  (outcome code Sample.signed_in = Returns false /\
   nonce (after code Sample.signed_in) = Some "nonce-1" /\
   idToken (after code Sample.signed_in) = Some "I1" /\
   accessToken (after code Sample.signed_in) = Some "A1" /\
   refreshToken (after code Sample.signed_in) = Some "R1" /\
   authState (after code Sample.signed_in)
     = {| isLoading := true; isAuthenticated := true;
          user := Some {| userId := "u2"; username := "bob" |};
          logoutReason := Some EmptyString |}) /\
  (outcome password Sample.signed_in = Returns false /\
   slots_absent (after password Sample.signed_in) /\
   authState (after password Sample.signed_in)
     = {| isLoading := true; isAuthenticated := false;
          user := None; logoutReason := Some "login failed" |}).
Proof. repeat split. Qed.

(** C9: what the code does where the claim fails.  A successful PASSWORD
    login builds the new state without a [logoutReason] property, so the
    field reads [undefined], not the empty string; the successful CODE
    login and the successful bootstrap set it to the empty string. *)
Example login_password_success_logoutReason_undefined :
  let c := mount None None None None in
  let password := login Sample.accepting "app" "1d" "bob" "pw" PASSWORD in
  let code := login Sample.accepting "app" "1d" "bob" "pw" CODE in
  let boot := invoke (bootstrap Sample.accepting "app") in
  (outcome password c = Returns true /\
   isAuthenticated (authState (after password c)) = true /\
   logoutReason (authState (after password c)) = None) /\
  (outcome code c = Returns true /\
   isAuthenticated (authState (after code c)) = true /\
   logoutReason (authState (after code c)) = Some EmptyString) /\
  (isAuthenticated
     (authState (after boot (mount (Some "I1") None None None))) = true /\
   logoutReason
     (authState (after boot (mount (Some "I1") None None None))) = Some EmptyString).
Proof. repeat split. Qed.


(** * Further properties of the operations *)

(** Splits on the next value a run branches on. *)
Ltac branch :=
  match goal with
  | |- context [match ?x with _ => _ end] =>
      lazymatch x with
      | context [match _ with _ => _ end] => fail
      | _ => destruct x eqn:?
      end
  end.

(** ** What [getAccessToken] can leave behind *)


(** ** The access token that verifies *)

(** X2.  When the session has a user with a user id and the persisted access
    token verifies with a non-empty user id, [getAccessToken] returns that
    token after the one verification call: no refresh, no logout, and the
    session and the four slots are as before. The user id of the token is
    not compared with the user id of the session. *)
Theorem getAccessToken_valid
    (env : Collaborators) (clientId : string)
    (c : Component) (u : User) (token : string) (jwt : Jwt) :
  isAuthenticated (authState c) = true ->
  user (authState c) = Some u ->
  userId u <> EmptyString ->
  accessToken c = Some token ->
  token <> EmptyString ->
  verifyAndExtractToken env (history c) token = Returns (Some jwt) ->
  payload_userId jwt <> EmptyString ->
  let run := invoke (getAccessToken env clientId) in
  outcome run c = Returns token /\
  calls_since c (after run c) = [CallVerify token] /\
  authState (after run c) = authState c /\
  nonce (after run c) = nonce c /\
  tokens_kept c (after run c).
Proof.
  intros Ha Hu Hid Htoken Hne Hv Hjwt run. unfold run.
  pose proof (proj2 (String.eqb_neq _ _) Hne) as Hne'.
  pose proof (proj2 (String.eqb_neq _ _) Hjwt) as Hjwt'.
  unfold outcome, after, calls_since, tokens_kept, invoke, getAccessToken,
    try_catch.
  change (r_authState (render c)) with (authState c).
  rewrite (session_user_signed_in _ Ha Hu Hid).
  unfold check_access_token.
  change (r_accessToken (render c)) with (accessToken c). rewrite Htoken.
  unfold truthy. rewrite Hne'. cbn [negb].
  unfold bind, call, ret. rewrite Hv. unfold jwt_ok. rewrite Hjwt'.
  simpl. rewrite skipn_history.
  repeat split; assumption.
Qed.

(** A signed-in component whose access token [I1] verifies. *)
Lemma getAccessToken_valid_witness :
  let c :=
    {| authState := authState Sample.signed_in;
       idToken := Some "I1"; accessToken := Some "I1";
       refreshToken := Some "R1"; nonce := Some "nonce-0";
       effectDidRunRef := true; history := [] |} in
  let run := invoke (getAccessToken Sample.accepting "app") in
  outcome run c = Returns "I1" /\
  calls_since c (after run c) = [CallVerify "I1"] /\
  authState (after run c) = authState c /\
  nonce (after run c) = nonce c /\
  tokens_kept c (after run c).
Proof.
  apply (@getAccessToken_valid Sample.accepting "app" _ Sample.bob "I1"
           Sample.alice);
    first [reflexivity | discriminate].
Defined.

(** ** The access token of nobody *)

Lemma getAccessToken_signed_out_run
    (env : Collaborators) (clientId : string) (c : Component) :
  session_user (authState c) = None ->
  invoke (getAccessToken env clientId) c
  = let request := logout_request clientId (render c) in
    let notify := CallLogoutUser request in
    match logoutUser env (history c) request with
    | Returns _ =>
        (Returns EmptyString,
         invalidated false ACCESS_TOKEN_ERROR (effectDidRunRef c)
           (history c ++ [notify]))
    | Throws =>
        match logoutUser env (history c ++ [notify]) request with
        | Returns _ =>
            (Returns EmptyString,
             invalidated false ACCESS_TOKEN_ERROR (effectDidRunRef c)
               ((history c ++ [notify]) ++ [notify]))
        | Throws =>
            (Throws,
             invalidated true ACCESS_TOKEN_ERROR (effectDidRunRef c)
               ((history c ++ [notify]) ++ [notify]))
        end
    end.
Proof.
  intros Hnone. unfold invoke, getAccessToken, try_catch.
  change (r_authState (render c)) with (authState c). rewrite Hnone.
  unfold bind at 1. rewrite invalidateAndLogout_run. cbv zeta.
  destruct (logoutUser env (history c) _).
  - reflexivity.
  - unfold bind at 1. rewrite invalidateAndLogout_run. cbv zeta.
    cbn [history effectDidRunRef invalidated].
    destruct (logoutUser env (history c ++ _) _); reflexivity.
Qed.

(** X3.  When nobody is signed in (not authenticated, no user, or a user
    with an empty user id), [getAccessToken] verifies nothing and refreshes
    nothing: it invalidates the session for reason [access token error] and
    notifies [logoutUser]. When that notification throws, the [catch] clause
    notifies a second time, and the second notification decides between the
    empty string and an exception. *)
Theorem getAccessToken_signed_out
    (env : Collaborators) (clientId : string) (c : Component) :
  session_user (authState c) = None ->
  let run := invoke (getAccessToken env clientId) in
  let notify := CallLogoutUser (logout_request clientId (render c)) in
  invalidated_with ACCESS_TOKEN_ERROR (after run c) /\
  match logoutUser env (history c) (logout_request clientId (render c)) with
  | Returns _ =>
      outcome run c = Returns EmptyString /\
      calls_since c (after run c) = [notify]
  | Throws =>
      calls_since c (after run c) = [notify; notify] /\
      outcome run c =
        match logoutUser env (history c ++ [notify])
                (logout_request clientId (render c)) with
        | Returns _ => Returns EmptyString
        | Throws => Throws
        end
  end.
Proof.
  intros Hnone run notify. unfold run, notify.
  unfold outcome, after, calls_since.
  rewrite (getAccessToken_signed_out_run env clientId c Hnone). cbv zeta.
  destruct (logoutUser env (history c) _).
  - simpl. rewrite skipn_history. repeat split.
  - destruct (logoutUser env (history c ++ _) _); simpl;
      rewrite <- app_assoc, skipn_history; repeat split.
Qed.

(** A signed-out component: one notification, the empty string. *)
Lemma getAccessToken_signed_out_witness :
  let c := mount None None None None in
  let run := invoke (getAccessToken Sample.rejecting "app") in
  invalidated_with ACCESS_TOKEN_ERROR (after run c) /\
  outcome run c = Returns EmptyString /\
  calls_since c (after run c)
    = [CallLogoutUser (logout_request "app" (render c))].
Proof.
  pose proof (@getAccessToken_signed_out Sample.rejecting "app"
                (mount None None None None) eq_refl) as H.
  exact H.
Defined.

(** ** The refresh that fails *)




(** ** Logout *)

(** X5.  [logout] tears the session down whatever the service does: the
    session is invalidated for reason [logout], and [logoutUser] is called
    exactly once, with the tokens the render held though the slots are empty
    by then. The call decides the rest: when it returns, [logout] returns
    and [isLoading] is false; when it throws, [logout] throws and
    [isLoading] stays true. *)
Theorem logout_teardown
    (env : Collaborators) (clientId : string) (r : Render) (c : Component) :
  let run := logout env clientId r in
  invalidated_with LOGOUT_SESSION (after run c) /\
  calls_since c (after run c)
    = [CallLogoutUser
         {| lo_idToken := r_idToken r;
            lo_accessToken := r_accessToken r;
            lo_refreshToken := r_refreshToken r;
            lo_clientId := clientId |}] /\
  (returned (outcome run c) = true <->
   returned (logoutUser env (history c) (logout_request clientId r)) = true) /\
  isLoading (authState (after run c)) = negb (returned (outcome run c)).
Proof.
  cbv zeta. unfold outcome, after, calls_since, logout.
  rewrite invalidateAndLogout_run. cbv zeta.
  destruct (logoutUser env (history c) _); simpl;
    rewrite skipn_history; repeat split; auto.
Qed.

(** X6.  A second [logout] leaves the session and the four slots as the
    first one left them, both notifications returning; the second
    notification carries no token. *)
Theorem logout_idempotent
    (env : Collaborators) (clientId : string) (c : Component) :
  (forall h req, returned (logoutUser env h req) = true) ->
  let once := after (invoke (logout env clientId)) c in
  let twice := after (invoke (logout env clientId)) once in
  authState twice = authState once /\
  idToken twice = idToken once /\
  accessToken twice = accessToken once /\
  refreshToken twice = refreshToken once /\
  nonce twice = nonce once /\
  calls_since once twice
    = [CallLogoutUser
         {| lo_idToken := None; lo_accessToken := None;
            lo_refreshToken := None; lo_clientId := clientId |}].
Proof.
  intros Hlogout. cbv zeta. unfold after, calls_since, invoke, logout.
  rewrite (invalidateAndLogout_run env clientId (render c)). cbv zeta.
  pose proof (Hlogout (history c) (logout_request clientId (render c))) as H1.
  destruct (logoutUser env (history c) _); [|discriminate].
  cbn [snd]. rewrite invalidateAndLogout_run. cbv zeta.
  match goal with
  | |- context [logoutUser env ?h ?q] =>
      pose proof (Hlogout h q) as H2; destruct (logoutUser env h q);
      [|discriminate]
  end.
  cbn [snd history invalidated]. rewrite skipn_history.
  repeat split.
Qed.

Lemma logout_idempotent_witness :
  let once := after (invoke (logout Sample.accepting "app")) Sample.signed_in in
  let twice := after (invoke (logout Sample.accepting "app")) once in
  authState twice = authState once /\
  idToken twice = idToken once /\
  accessToken twice = accessToken once /\
  refreshToken twice = refreshToken once /\
  nonce twice = nonce once /\
  calls_since once twice
    = [CallLogoutUser
         {| lo_idToken := None; lo_accessToken := None;
            lo_refreshToken := None; lo_clientId := "app" |}].
Proof.
  apply (@logout_idempotent Sample.accepting "app" Sample.signed_in).
  intros h req. reflexivity.
Defined.

(** ** The reason of an invalidation *)

(** X7.  An invalidation records the reason it is given when that is a
    non-empty string, and [expired session] when the reason is missing or
    empty, for [removeStateAndLocalStorage] and for [invalidateAndLogout]
    alike and whether [logoutUser] returns or throws. *)
Theorem invalidation_reason
    (env : Collaborators) (clientId : string) (r : Render) (c : Component) :
  let removed reason :=
    logoutReason (authState (after (removeStateAndLocalStorage reason) c)) in
  let invalidated message :=
    logoutReason
      (authState (after (invalidateAndLogout env clientId r message) c)) in
  (forall reason,
      reason <> EmptyString ->
      removed (Some reason) = Some reason /\
      invalidated reason = Some reason) /\
  removed None = Some EXPIRED_SESSION /\
  removed (Some EmptyString) = Some EXPIRED_SESSION /\
  invalidated EmptyString = Some EXPIRED_SESSION.
Proof.
  cbv zeta. unfold after.
  split; [intros reason Hne; apply String.eqb_neq in Hne; split|].
  - rewrite removeStateAndLocalStorage_run. simpl.
    rewrite Hne. reflexivity.
  - rewrite invalidateAndLogout_run. cbv zeta.
    destruct (logoutUser env (history c) _); simpl; rewrite Hne;
      reflexivity.
  - split; [reflexivity | split; [reflexivity|]].
    rewrite invalidateAndLogout_run. cbv zeta.
    destruct (logoutUser env (history c) _); reflexivity.
Qed.

(** ** Bootstrap with a token that does not verify *)

(** The task of the effect on a token that does not verify: the
    component it leaves is an invalidated one, after the verification and
    at least one notification. *)
Lemma bootstrap_task_rejects_run
    (env : Collaborators) (clientId : string) (r : Render)
    (token : string) (c : Component) :
  verification_fails (verifyAndExtractToken env (history c) token) ->
  exists loading calls,
    snd (bootstrap_task env clientId r token c)
    = invalidated loading EXPIRED_SESSION (effectDidRunRef c)
        (history c ++ CallVerify token
           :: CallLogoutUser (logout_request clientId r) :: calls).
Proof.
  intros Hfails.
  assert (Twice : forall c0 : Component,
    history c0 = history c ++ [CallVerify token] ->
    effectDidRunRef c0 = effectDidRunRef c ->
    exists loading calls,
      snd (try_catch (invalidateAndLogout env clientId r EXPIRED_SESSION)
             (invalidateAndLogout env clientId r EXPIRED_SESSION) c0)
      = invalidated loading EXPIRED_SESSION (effectDidRunRef c)
          (history c ++ CallVerify token
             :: CallLogoutUser (logout_request clientId r) :: calls)).
  { intros c0 Hh Href. unfold try_catch.
    rewrite invalidateAndLogout_run. cbv zeta. rewrite Hh, Href.
    destruct (logoutUser env _ _).
    - exists false, []. simpl. rewrite <- app_assoc. reflexivity.
    - rewrite invalidateAndLogout_run. cbv zeta.
      cbn [history effectDidRunRef invalidated].
      destruct (logoutUser env _ _);
        [exists false | exists true];
        exists [CallLogoutUser (logout_request clientId r)];
        simpl; rewrite <- !app_assoc; reflexivity. }
  unfold bootstrap_task, try_catch in *.
  unfold bind at 1, call at 1.
  unfold verification_fails, jwt_ok in Hfails.
  destruct (verifyAndExtractToken env (history c) token) as [[jwt|]|].
  - rewrite Hfails. apply Twice; reflexivity.
  - apply Twice; reflexivity.
  - rewrite invalidateAndLogout_run. cbv zeta.
    cbn [history effectDidRunRef].
    destruct (logoutUser env _ _);
      [exists false | exists true]; exists [];
      simpl; rewrite <- !app_assoc; reflexivity.
Qed.

(** The first run of the effect over a persisted identity token. *)
Lemma bootstrap_first_run
    (env : Collaborators) (clientId : string)
    (c : Component) (token : string) :
  effectDidRunRef c = false ->
  idToken c = Some token ->
  isLoading (authState c) = true ->
  invoke (bootstrap env clientId) c
  = setEffectDidRun true
      (snd (bootstrap_task env clientId (render c) token c)).
Proof.
  intros Href Hid Hloading. unfold invoke, bootstrap.
  unfold bind at 1, readEffectDidRun. rewrite Href.
  change (r_idToken (render c)) with (idToken c).
  change (r_authState (render c)) with (authState c).
  rewrite Hid, Hloading. reflexivity.
Qed.

(** X8.  At mount, a persisted identity token whose verification throws,
    returns no token, or returns a token with an empty user id ends the
    session: it is invalidated for reason [expired session] and the service
    is notified. The effect itself returns whatever the notification does,
    and marks itself as run. *)
Theorem bootstrap_rejects
    (env : Collaborators) (clientId : string)
    (i a rf n : option string) (token : string) :
  i = Some token ->
  verification_fails (verifyAndExtractToken env [] token) ->
  let run := invoke (bootstrap env clientId) in
  let c := mount i a rf n in
  outcome run c = Returns tt /\
  invalidated_with EXPIRED_SESSION (after run c) /\
  effectDidRunRef (after run c) = true /\
  1 <= count_calls is_logoutUser (history (after run c)).
Proof.
  intros -> Hfails. cbv zeta.
  unfold outcome, after.
  rewrite (@bootstrap_first_run env clientId (mount (Some token) a rf n)
             token eq_refl eq_refl eq_refl).
  destruct (bootstrap_task_rejects_run env clientId
              (render (mount (Some token) a rf n)) token
              (mount (Some token) a rf n) Hfails)
    as (loading & calls & E).
  rewrite E. unfold setEffectDidRun, invalidated_with, slots_absent.
  cbn. repeat split.
  unfold count_calls. cbn. lia.
Qed.

Lemma bootstrap_rejects_witness :
  let run := invoke (bootstrap Sample.rejecting "app") in
  let c := mount (Some "I0") (Some "A0") (Some "R0") None in
  outcome run c = Returns tt /\
  invalidated_with EXPIRED_SESSION (after run c) /\
  effectDidRunRef (after run c) = true /\
  1 <= count_calls is_logoutUser (history (after run c)).
Proof.
  apply (@bootstrap_rejects Sample.rejecting "app"
           (Some "I0") (Some "A0") (Some "R0") None "I0").
  - reflexivity.
  - reflexivity.
Defined.

(** ** Bootstrap runs once *)

(** X9.  The bootstrap effect never throws and leaves the ref set, so that
    any later run of the effect, from whatever render, changes nothing and
    calls nobody. *)
Theorem bootstrap_runs_once
    (env : Collaborators) (clientId : string) (r r' : Render)
    (c : Component) :
  let once := after (bootstrap env clientId r) c in
  outcome (bootstrap env clientId r) c = Returns tt /\
  effectDidRunRef once = true /\
  bootstrap env clientId r' once = (Returns tt, once).
Proof.
  cbv zeta.
  assert (H : outcome (bootstrap env clientId r) c = Returns tt /\
              effectDidRunRef (after (bootstrap env clientId r) c) = true ->
              outcome (bootstrap env clientId r) c = Returns tt /\
              effectDidRunRef (after (bootstrap env clientId r) c) = true /\
              bootstrap env clientId r' (after (bootstrap env clientId r) c)
              = (Returns tt, after (bootstrap env clientId r) c)).
  { intros (H1 & H2). repeat split; try assumption.
    unfold bootstrap at 1. unfold bind at 1, readEffectDidRun.
    rewrite H2. reflexivity. }
  apply H. clear H.
  unfold outcome, after, bootstrap.
  unfold bind at 1 3. unfold readEffectDidRun.
  destruct (effectDidRunRef c) eqn:E.
  - split; [reflexivity | exact E].
  - unfold bind, setEffectDidRun.
    destruct (r_idToken r) as [token|];
      [destruct (isLoading (r_authState r))|];
      unfold detached, updateAuthState, setAuthState; simpl; split;
      reflexivity.
Qed.

(** ** What [login] can leave behind *)


(** ** The calls of a login *)

(** X11.  Whatever the collaborators do, the requests [login] sends all
    carry the nonce drawn at its start, and the exchange carries the grant
    asked for; [authenticateUser] is called at most once; a PASSWORD login
    neither draws a PKCE pair nor asks for a pre-authorisation code; and no
    login verifies a token, refreshes or notifies a logout. *)
Theorem login_calls
    (env : Collaborators) (clientId sessionExpiration : string)
    (c : Component) (name password : string) (type : AuthType) :
  let run := login env clientId sessionExpiration name password type in
  let calls := calls_since c (after run c) in
  Forall (carries_nonce (uuidv4 env (history c)) type) calls /\
  count_calls is_authenticate calls <= 1 /\
  (type = PASSWORD ->
   count_calls is_pkce calls = 0 /\
   count_calls is_preauth calls = 0 /\
   count_calls is_authenticate calls = 1) /\
  count_calls is_verify calls = 0 /\
  count_calls is_refresh calls = 0 /\
  count_calls is_logoutUser calls = 0.
Proof.
  cbv zeta. unfold calls_since.
  unfold after, login, authenticated, removeStateAndLocalStorage.
  unfold bind, call, ret, updateAuthState, setAuthState, setIdToken,
    setAccessToken, setRefreshToken, setNonce, removeIdToken,
    removeAccessToken, removeRefreshToken, removeNonce, writeIdToken,
    writeAccessToken, writeRefreshToken, writeNonce.
  cbn [fst snd history authState idToken accessToken refreshToken nonce
       effectDidRunRef].
  destruct type; cbn [is_code].
  - destruct (authenticateUser env _ _) as [response|];
      [destruct (auth_status response)|]; cbn [snd history];
      rewrite <- ?app_assoc, skipn_history;
      (split; [repeat constructor |]); cbn; repeat split; lia.
  - destruct (pkceChallengePair env _) as [pair|]; cbn [snd history];
      [destruct (getPreAuthCode env _ _) as [pre|]; cbn [snd history];
       [destruct (pre_status pre); cbn [snd history];
        [destruct (authenticateUser env _ _) as [response|];
         [destruct (auth_status response)|]; cbn [snd history]|]|]|].
    all: rewrite <- ?app_assoc, skipn_history.
    all: (split; [repeat constructor |]); cbn; repeat split;
      first [lia | discriminate].
Qed.

(** ** Properties of the session that every operation keeps *)

Section Stable.

Variable env : Collaborators.
Variable clientId : string.
Variable sessionExpiration : string.

(** A property of components that looks at [isAuthenticated] and
    [logoutReason] only, that holds of every signed-out component, and
    that holds of a component whose reason is empty or undefined. *)
Variable P : Component -> Prop.

Hypothesis P_frame :
  forall c c',
    isAuthenticated (authState c') = isAuthenticated (authState c) ->
    logoutReason (authState c') = logoutReason (authState c) ->
    P c -> P c'.

Hypothesis P_signed_out :
  forall c, isAuthenticated (authState c) = false -> P c.

Hypothesis P_signed_in :
  forall c,
    truthy (logoutReason (authState c)) = false ->
    P c.

Lemma stable_call {A : Type} (what : Call) (f : list Call -> Outcome A) :
  preserves P (call what f).
Proof. intros c H. apply (@P_frame c); auto. Qed.

Lemma stable_writeAccessToken (v : option string) :
  preserves P (writeAccessToken v).
Proof. intros c H. apply (@P_frame c); auto. Qed.

Lemma stable_writeRefreshToken (v : option string) :
  preserves P (writeRefreshToken v).
Proof. intros c H. apply (@P_frame c); auto. Qed.

Lemma stable_with_isLoading (b : bool) :
  preserves P (updateAuthState (with_isLoading b)).
Proof. intros c H. apply (@P_frame c); auto. Qed.

Lemma stable_setEffectDidRun (b : bool) :
  preserves P (setEffectDidRun b).
Proof. intros c H. apply (@P_frame c); auto. Qed.

Lemma stable_invalidateAndLogout (r : Render) (message : string) :
  preserves P (invalidateAndLogout env clientId r message).
Proof.
  intros c _. apply P_signed_out. rewrite invalidateAndLogout_run. cbv zeta.
  destruct (logoutUser env (history c) _); reflexivity.
Qed.

Lemma stable_getAccessToken (r : Render) :
  preserves P (getAccessToken env clientId r).
Proof.
  unfold getAccessToken, check_access_token.
  repeat lazymatch goal with
    | |- preserves _ (bind _ _) => apply preserves_bind; [| intros ?]
    | |- preserves _ (try_catch _ _) => apply preserves_try_catch
    | |- preserves _ (ret _) => apply preserves_ret
    | |- preserves _ (call _ _) => apply stable_call
    | |- preserves _ (setAccessToken _) => apply stable_writeAccessToken
    | |- preserves _ (setRefreshToken _) => apply stable_writeRefreshToken
    | |- preserves _ (invalidateAndLogout _ _ _ _) =>
        apply stable_invalidateAndLogout
    | |- preserves _ (if ?b then _ else _) => destruct b
    | |- preserves _ (match ?x with _ => _ end) => destruct x
    end.
Qed.

Lemma stable_login (name password : string) (type : AuthType) :
  preserves P (login env clientId sessionExpiration name password type).
Proof.
  intros c H.
  unfold login, authenticated, removeStateAndLocalStorage.
  unfold bind, call, ret, updateAuthState, setAuthState, setIdToken,
    setAccessToken, setRefreshToken, setNonce, removeIdToken,
    removeAccessToken, removeRefreshToken, removeNonce, writeIdToken,
    writeAccessToken, writeRefreshToken, writeNonce.
  cbn [fst snd history authState idToken accessToken refreshToken nonce
       effectDidRunRef].
  destruct type; cbn [is_code].
  - destruct (authenticateUser env _ _) as [response|];
      [destruct (auth_status response)|]; cbn [snd].
    + apply P_signed_in. reflexivity.
    + apply P_signed_out. reflexivity.
    + apply (@P_frame c); auto.
  - destruct (pkceChallengePair env _) as [pair|]; cbn [snd];
      [destruct (getPreAuthCode env _ _) as [pre|]; cbn [snd];
       [destruct (pre_status pre); cbn [snd];
        [destruct (authenticateUser env _ _) as [response|];
         [destruct (auth_status response)|]; cbn [snd]|]|]|].
    + apply P_signed_in. reflexivity.
    + apply P_signed_out. reflexivity.
    + apply (@P_frame c); auto.
    + apply (@P_frame c); auto.
    + apply (@P_frame c); auto.
    + apply (@P_frame c); auto.
Qed.

(** The task of the effect, run with the render of the component. *)
Lemma stable_bootstrap_task (c : Component) (token : string) :
  P (snd (bootstrap_task env clientId (render c) token c)).
Proof.
  assert (Out : forall c0,
    P (snd (try_catch
              (invalidateAndLogout env clientId (render c) EXPIRED_SESSION)
              (invalidateAndLogout env clientId (render c) EXPIRED_SESSION)
              c0))).
  { intros c0. apply P_signed_out. unfold try_catch.
    rewrite invalidateAndLogout_run. cbv zeta.
    destruct (logoutUser env (history c0) _).
    - reflexivity.
    - rewrite invalidateAndLogout_run. cbv zeta.
      destruct (logoutUser env _ _); reflexivity. }
  unfold bootstrap_task, try_catch in *.
  unfold bind at 1, call at 1.
  destruct (verifyAndExtractToken env (history c) token) as [[jwt|]|].
  - destruct (negb (payload_userId jwt =? EmptyString)).
    + apply P_signed_in. reflexivity.
    + apply Out.
  - apply Out.
  - apply P_signed_out. rewrite invalidateAndLogout_run. cbv zeta.
    destruct (logoutUser env _ _); reflexivity.
Qed.

Lemma stable_bootstrap :
  preserves P (invoke (bootstrap env clientId)).
Proof.
  intros c H. unfold invoke, bootstrap.
  unfold bind at 1, readEffectDidRun.
  destruct (effectDidRunRef c); [exact H|].
  unfold bind.
  change (r_idToken (render c)) with (idToken c).
  destruct (idToken c) as [token|];
    [destruct (isLoading (r_authState (render c)))|].
  - unfold detached.
    apply stable_setEffectDidRun, stable_bootstrap_task.
  - apply stable_setEffectDidRun, stable_with_isLoading, H.
  - apply stable_setEffectDidRun, stable_with_isLoading, H.
Qed.

(** The property holds of every component reachable with a bootstrap run
    from the current render, once it holds at mount. *)
Lemma reachable_current_stable (c : Component) :
  (forall i a rf n, P (mount i a rf n)) ->
  reachable_current env clientId sessionExpiration c -> P c.
Proof.
  intros Hmount H. induction H.
  - apply Hmount.
  - apply stable_bootstrap, IHreachable_current.
  - apply stable_login, IHreachable_current.
  - apply stable_invalidateAndLogout, IHreachable_current.
  - apply stable_getAccessToken, IHreachable_current.
Qed.

End Stable.

(** X13.  In every component reached by bootstrap, login, logout and
    getAccessToken, a signed-in session shows no logout reason: the reason
    is the empty string or undefined. *)
Theorem authenticated_has_no_reason
    (env : Collaborators) (clientId sessionExpiration : string)
    (c : Component) :
  reachable_current env clientId sessionExpiration c ->
  isAuthenticated (authState c) = true ->
  truthy (logoutReason (authState c)) = false.
Proof.
  intros H.
  apply (@reachable_current_stable env clientId sessionExpiration
           (fun c => isAuthenticated (authState c) = true ->
                     truthy (logoutReason (authState c)) = false));
    try assumption.
  - intros c0 c1 Ha Hr H0 H1. rewrite Hr. apply H0. rewrite <- Ha. exact H1.
  - intros c0 F T. rewrite F in T. discriminate.
  - intros c0 Hr _. exact Hr.
  - intros i a rf n F. discriminate.
Qed.

Lemma authenticated_has_no_reason_witness :
  let c := after (login Sample.accepting "app" "1d" "bob" "pw" PASSWORD)
             (after (invoke (logout Sample.accepting "app"))
                (mount None None None None)) in
  truthy (logoutReason (authState c)) = false.
Proof.
  apply (@authenticated_has_no_reason Sample.accepting "app" "1d").
  - apply current_login.
    apply (@current_logout Sample.accepting "app" "1d" _
             (render (mount None None None None))).
    apply current_mount.
  - reflexivity.
Defined.

(** ** Operations in sequence *)

(** X14.  After a [logout], whether its notification returned or threw,
    nothing of the session can be obtained: [getIdToken] returns
    [undefined], and [getAccessToken] verifies nothing, refreshes nothing
    and returns the empty string unless it throws. *)
Theorem nothing_after_logout
    (env : Collaborators) (clientId : string) (r : Render) (c : Component) :
  let signed_out := after (logout env clientId r) c in
  let run := invoke (getAccessToken env clientId) in
  outcome (invoke getIdToken) signed_out = Returns None /\
  (outcome run signed_out = Returns EmptyString \/
   outcome run signed_out = Throws) /\
  count_calls is_verify (calls_since signed_out (after run signed_out)) = 0 /\
  count_calls is_refresh (calls_since signed_out (after run signed_out)) = 0.
Proof.
  cbv zeta. set (signed_out := after (logout env clientId r) c).
  assert (Ha : isAuthenticated (authState signed_out) = false).
  { unfold signed_out, after, logout.
    rewrite invalidateAndLogout_run. cbv zeta.
    destruct (logoutUser env (history c) _); reflexivity. }
  assert (Hout : session_user (authState signed_out) = None).
  { unfold session_user. rewrite Ha. reflexivity. }
  split.
  - unfold outcome. rewrite getIdToken_run, Ha. reflexivity.
  - unfold outcome, after, calls_since.
    rewrite (getAccessToken_signed_out_run env clientId _ Hout). cbv zeta.
    destruct (logoutUser env _ _);
      [|destruct (logoutUser env _ _)]; cbn [fst snd history invalidated];
      rewrite <- ?app_assoc, skipn_history;
      (split; [first [left; reflexivity | right; reflexivity]
              | split; reflexivity]).
Qed.

(** ** The proof of key exchange in a CODE login *)

(** X16.  In a CODE login whose pre-authorisation is granted, four calls are
    made whatever the exchange answers: the nonce is drawn, the PKCE pair is
    drawn, the pre-authorisation is asked with the challenge of the pair,
    and the exchange is asked with the code the pre-authorisation returned
    and the verifier of that same pair, under the same nonce. *)
Theorem login_code_key_exchange
    (env : Collaborators) (clientId sessionExpiration : string)
    (c : Component) (name password : string)
    (pair : PkcePair) (preResponse : PreAuthResponse) :
  pkceChallengePair env (history c ++ [CallUuid]) = Returns pair ->
  getPreAuthCode env ((history c ++ [CallUuid]) ++ [CallPkce])
    (preauth_request env clientId c pair) = Returns preResponse ->
  pre_status preResponse = true ->
  let run := login env clientId sessionExpiration name password CODE in
  calls_since c (after run c)
  = [CallUuid;
     CallPkce;
     CallPreAuth
       {| pre_nonce := uuidv4 env (history c);
          pre_clientId := clientId;
          pre_code_challenge := code_challenge pair |};
     CallAuthenticate
       {| req_username := name;
          req_password := password;
          req_clientId := clientId;
          req_sessionExpiration := sessionExpiration;
          req_nonce := uuidv4 env (history c);
          req_type := CODE;
          req_code := Some (pre_code preResponse);
          req_code_verifier := Some (code_verifier pair) |}].
Proof.
  intros Hpkce Hpre Hstatus run. unfold run, calls_since, after.
  unfold preauth_request in Hpre.
  unfold login, authenticated, removeStateAndLocalStorage.
  unfold bind, call, ret, updateAuthState, setAuthState, setIdToken,
    setAccessToken, setRefreshToken, setNonce, removeIdToken,
    removeAccessToken, removeRefreshToken, removeNonce, writeIdToken,
    writeAccessToken, writeRefreshToken, writeNonce.
  cbn [fst snd history authState idToken accessToken refreshToken nonce
       effectDidRunRef is_code].
  rewrite Hpkce. cbn [fst snd history]. rewrite Hpre. cbn [fst snd history].
  rewrite Hstatus.
  destruct (authenticateUser env _ _) as [response|];
    [destruct (auth_status response)|]; cbn [snd history];
    rewrite <- !app_assoc, skipn_history; reflexivity.
Qed.

Lemma login_code_key_exchange_witness :
  let run := login Sample.accepting "app" "1d" "bob" "pw" CODE in
  let c := mount None None None None in
  calls_since c (after run c)
  = [CallUuid;
     CallPkce;
     CallPreAuth
       {| pre_nonce := "nonce-1";
          pre_clientId := "app";
          pre_code_challenge := "CH" |};
     CallAuthenticate
       {| req_username := "bob";
          req_password := "pw";
          req_clientId := "app";
          req_sessionExpiration := "1d";
          req_nonce := "nonce-1";
          req_type := CODE;
          req_code := Some "C1";
          req_code_verifier := Some "V" |}].
Proof.
  apply (@login_code_key_exchange Sample.accepting "app" "1d"
           (mount None None None None) "bob" "pw" Sample.pair
           {| pre_status := true; pre_code := "C1" |});
    reflexivity.
Defined.

(** ** The exchange that is refused *)

(** X17.  When the token exchange of a login answers with a false status, in
    the PASSWORD grant or in the CODE grant after a granted
    pre-authorisation, [login] returns [false] and the session is
    invalidated for reason [login failed]: the tokens and the session of an
    earlier sign-in are gone, and so is the nonce of this login. *)
Theorem login_exchange_refused
    (env : Collaborators) (clientId sessionExpiration : string)
    (c : Component) (name password : string) (response : AuthResponse) :
  auth_status response = false ->
  (authenticateUser env (history c ++ [CallUuid])
     (exchange_request env clientId sessionExpiration c name password
        PASSWORD None None) = Returns response ->
   let run := login env clientId sessionExpiration name password PASSWORD in
   outcome run c = Returns false /\
   invalidated_with LOGIN_ERROR (after run c)) /\
  (forall pair preResponse,
      pkceChallengePair env (history c ++ [CallUuid]) = Returns pair ->
      getPreAuthCode env ((history c ++ [CallUuid]) ++ [CallPkce])
        (preauth_request env clientId c pair) = Returns preResponse ->
      pre_status preResponse = true ->
      authenticateUser env
        (((history c ++ [CallUuid]) ++ [CallPkce])
           ++ [CallPreAuth (preauth_request env clientId c pair)])
        (exchange_request env clientId sessionExpiration c name password
           CODE (Some (pre_code preResponse)) (Some (code_verifier pair)))
      = Returns response ->
      let run := login env clientId sessionExpiration name password CODE in
      outcome run c = Returns false /\
      invalidated_with LOGIN_ERROR (after run c)).
Proof.
  intros Hstatus. split.
  - intros Hauth. cbv zeta. unfold outcome, after.
    rewrite (login_password_run env clientId sessionExpiration c
               name password Hauth).
    rewrite Hstatus. repeat split.
  - intros pair preResponse Hpkce Hpre Hgranted Hauth.
    cbv zeta. unfold outcome, after.
    rewrite (login_code_run env clientId sessionExpiration c
               name password Hpkce Hpre Hgranted Hauth).
    rewrite Hstatus. repeat split.
Qed.

(** A signed-in component and a service that refuses the password. *)
Lemma login_exchange_refused_witness :
  let run := login Sample.rejecting "app" "1d" "bob" "pw" PASSWORD in
  outcome run Sample.signed_in = Returns false /\
  invalidated_with LOGIN_ERROR (after run Sample.signed_in).
Proof.
  apply (proj1 (@login_exchange_refused Sample.rejecting "app" "1d"
                  Sample.signed_in "bob" "pw" Sample.refused eq_refl)).
  reflexivity.
Defined.

(** ** The guard of the bootstrap effect *)

Section Guard.

Variable env : Collaborators.
Variable clientId : string.
Variable sessionExpiration : string.

Lemma guarded_invalidateAndLogout (r : Render) (message : string) :
  preserves guarded (invalidateAndLogout env clientId r message).
Proof.
  intros c H. rewrite invalidateAndLogout_run. cbv zeta.
  destruct (logoutUser env (history c) _); exact H.
Qed.

Lemma guarded_removeStateAndLocalStorage (reason : option string) :
  preserves guarded (removeStateAndLocalStorage reason).
Proof. intros c H. exact H. Qed.

(** Every primitive but the one that sets the ref leaves it alone. *)
Ltac keep_guard :=
  repeat lazymatch goal with
    | |- preserves _ (bind _ _) => apply preserves_bind; [| intros ?]
    | |- preserves _ (try_catch _ _) => apply preserves_try_catch
    | |- preserves _ (invalidateAndLogout _ _ _ _) =>
        apply guarded_invalidateAndLogout
    | |- preserves _ (removeStateAndLocalStorage _) =>
        apply guarded_removeStateAndLocalStorage
    | |- preserves _ (if ?b then _ else _) => destruct b
    | |- preserves _ (match ?x with _ => _ end) => destruct x
    | |- preserves _ _ => intros ? Hguard; exact Hguard
    end.

Lemma guarded_login (name password : string) (type : AuthType) :
  preserves guarded
    (login env clientId sessionExpiration name password type).
Proof. unfold login, authenticated. keep_guard. Qed.

Lemma guarded_getAccessToken (r : Render) :
  preserves guarded (getAccessToken env clientId r).
Proof. unfold getAccessToken, check_access_token. keep_guard. Qed.

End Guard.

(** X18.  Once the bootstrap effect has run, nothing arms it again: [login],
    [logout] and [getAccessToken], from any render and whatever the
    collaborators do, leave the ref set, and a further run of the effect
    leaves the component as it is. *)
Theorem bootstrap_guard_stays_set
    (env : Collaborators) (clientId sessionExpiration : string)
    (c : Component) (r : Render) :
  effectDidRunRef c = true ->
  (forall name password type,
      effectDidRunRef
        (after (login env clientId sessionExpiration name password type) c)
      = true) /\
  effectDidRunRef (after (logout env clientId r) c) = true /\
  effectDidRunRef (after (getAccessToken env clientId r) c) = true /\
  bootstrap env clientId r c = (Returns tt, c).
Proof.
  intros H. repeat split.
  - intros name password type.
    apply (guarded_login env clientId sessionExpiration name password type H).
  - apply (guarded_invalidateAndLogout env clientId r LOGOUT_SESSION H).
  - apply (guarded_getAccessToken env clientId r H).
  - unfold bootstrap, bind, readEffectDidRun. rewrite H. reflexivity.
Qed.

Lemma bootstrap_guard_stays_set_witness :
  (forall name password type,
      effectDidRunRef
        (after (login Sample.accepting "app" "1d" name password type)
           Sample.signed_in) = true) /\
  effectDidRunRef
    (after (logout Sample.accepting "app" (render Sample.signed_in))
       Sample.signed_in) = true /\
  effectDidRunRef
    (after (getAccessToken Sample.accepting "app" (render Sample.signed_in))
       Sample.signed_in) = true /\
  bootstrap Sample.accepting "app" (render Sample.signed_in) Sample.signed_in
  = (Returns tt, Sample.signed_in).
Proof.
  apply (@bootstrap_guard_stays_set Sample.accepting "app" "1d"
           Sample.signed_in (render Sample.signed_in)).
  reflexivity.
Defined.

(** ** The calls of [getAccessToken] *)

(** X19.  Whatever the collaborators do, [getAccessToken] calls nothing but
    the verification of the persisted access token, the refresh for the user
    of the session under the persisted nonce, and the logout notification
    with the persisted tokens: at most one verification, at most one refresh
    and at most two notifications. It draws no nonce and asks for no
    exchange. *)
Theorem getAccessToken_calls
    (env : Collaborators) (clientId : string) (c : Component) :
  let run := invoke (getAccessToken env clientId) in
  let calls := calls_since c (after run c) in
  Forall (getAccessToken_call clientId c) calls /\
  count_calls is_verify calls <= 1 /\
  count_calls is_refresh calls <= 1 /\
  count_calls is_logoutUser calls <= 2.
Proof.
  cbv zeta. unfold calls_since, count_calls.
  unfold after, invoke, getAccessToken, check_access_token,
    invalidateAndLogout, removeStateAndLocalStorage, session_user.
  unfold try_catch, bind, call, ret, updateAuthState, setAuthState,
    setAccessToken, setRefreshToken, writeAccessToken, writeRefreshToken,
    removeIdToken, removeAccessToken, removeRefreshToken, removeNonce,
    writeIdToken, writeNonce.
  simpl.
  repeat (branch; simpl).
  all: rewrite <- ?app_assoc, ?skipn_history;
    try (rewrite <- (app_nil_r (history c)) at 2; rewrite skipn_history).
  all: split; [| simpl; repeat split; lia].
  all: simpl;
    repeat match goal with
      | |- Forall _ [] => apply Forall_nil
      | |- Forall _ (_ :: _) => apply Forall_cons
      end.
  all: simpl; unfold refresh_request, logout_request, render; simpl;
    repeat match goal with
      | H : accessToken _ = _ |- _ => rewrite H
      end;
    first
      [ reflexivity
      | match goal with
        | H : user _ = Some ?u |- _ =>
            exists u; split; [exact H | reflexivity]
        end ].
Qed.

(** ** The identity token after bootstrap *)

(** X20.  At mount, once the bootstrap effect has accepted a non-empty
    persisted identity token, [getIdToken] returns that token. *)
Theorem getIdToken_after_bootstrap
    (env : Collaborators) (clientId : string)
    (a rf n : option string) (token : string) (jwt : Jwt) :
  token <> EmptyString ->
  verifyAndExtractToken env [] token = Returns (Some jwt) ->
  payload_userId jwt <> EmptyString ->
  let c := after (invoke (bootstrap env clientId))
             (mount (Some token) a rf n) in
  outcome (invoke getIdToken) c = Returns (Some token).
Proof.
  intros Hne Hv Hid. cbv zeta. unfold outcome, after.
  rewrite (@bootstrap_first_run env clientId (mount (Some token) a rf n)
             token eq_refl eq_refl eq_refl).
  unfold bootstrap_task, try_catch, bind, call. cbn [mount history].
  rewrite Hv. apply String.eqb_neq in Hid. rewrite Hid. cbn [negb].
  rewrite getIdToken_run. cbn.
  apply String.eqb_neq in Hne. rewrite Hne. reflexivity.
Qed.

Lemma getIdToken_after_bootstrap_witness :
  outcome (invoke getIdToken)
    (after (invoke (bootstrap Sample.accepting "app"))
       (mount (Some "I1") None None None)) = Returns (Some "I1").
Proof.
  apply (@getIdToken_after_bootstrap Sample.accepting "app"
           None None None "I1" Sample.alice).
  - discriminate.
  - reflexivity.
  - discriminate.
Defined.
